(** * barotropy: the example driver [examples/realdata_djf_ics.py]

    A shallow embedding of the integration driver of the barotropic
    vorticity model: the configuration block, the assembly of the list of
    prognostics, the set-up of the monitors, the parsing of the run
    duration and the integration loop.

    Python dictionaries are objects on a heap and are mutated in place, so
    states live in a store of dictionaries indexed by addresses; the time
    stepper and the monitors are collaborators imported from [sympl].

    The stepper is a parameter of the driver: any function of its private
    state and the heap.  The monitors are observers: making one and
    storing a state are events of the trace, they change no dictionary
    and raise nothing.  Floats are exact rationals, and [/] is the true
    division of Python 3. *)

From Stdlib Require Import ZArith QArith Qround Ascii String List Lia.
From stdpp Require Import gmap strings list fin_maps.

Local Open Scope Z_scope.

(** ** Exceptions and results *)

(** The Python exceptions the driver can raise, and the error classes the
    specification names. *)
Inductive exn :=
| ValueError
| KeyError
| TypeError
| ZeroDivisionError
| OverflowError
| ConfigurationError
| NameCollisionError
| TransformError.

Inductive result (A : Type) :=
| Ok (a : A)
| Raise (e : exn).
Arguments Ok {A} a.
Arguments Raise {A} e.

Definition bind {A B} (r : result A) (k : A → result B) : result B :=
  match r with
  | Ok a => k a
  | Raise e => Raise e
  end.

Notation "'do' x <- e ; k" := (bind e (fun x => k))
  (at level 10, x pattern, e at level 100, k at level 200).

(** ** [datetime] and [timedelta] *)

Module Time.

(** A [timedelta] is its total number of microseconds; a [datetime] is
    the number of microseconds since [datetime.min]. *)
Definition us_per_second : Z := 1000000.
Definition us_per_day : Z := 86400 * us_per_second.

(** [timedelta.max.days] and [date.max.toordinal()]. *)
Definition max_delta_days : Z := 999999999.
Definition max_ordinal : Z := 3652059.

Definition delta_in_range (td : Z) : bool :=
  (- max_delta_days * us_per_day <=? td) && (td <? (max_delta_days + 1) * us_per_day).

Definition date_in_range (t : Z) : bool :=
  (0 <=? t) && (t <? max_ordinal * us_per_day).

(** [timedelta(days=d, hours=h, minutes=m)] *)
Definition timedelta (d h m : Z) : result Z :=
  let td := ((d * 24 + h) * 60 + m) * 60 * us_per_second in
  if delta_in_range td then Ok td else Raise OverflowError.

Definition minutes (m : Z) : Z := m * 60 * us_per_second.
Definition hours (h : Z) : Z := h * 3600 * us_per_second.

(** The normalised fields [.days] and [.seconds] of a [timedelta]:
    [0 <= seconds < 86400], the sign is carried by [days]. *)
Definition days (td : Z) : Z := td / us_per_day.
Definition seconds (td : Z) : Z := (td mod us_per_day) / us_per_second.

(** [datetime - datetime] *)
Definition sub (t1 t2 : Z) : Z := t1 - t2.

(** [datetime + timedelta] *)
Definition add (t td : Z) : result Z :=
  if date_in_range (t + td) then Ok (t + td) else Raise OverflowError.

End Time.

(** ** Python numbers *)

(** [x % n] for a float [x] and an int [n], in exact arithmetic. *)
Definition pymod (x : Q) (n : Z) : result Q :=
  if n =? 0 then Raise ZeroDivisionError
  else Ok (x - inject_Z n * inject_Z (Qfloor (x / inject_Z n)))%Q.

(** ** Values, dictionaries and the heap *)

Inductive value :=
| VTime (t : Z)
| VField (f : list Q).

Abbreviation dict := (gmap string value).
Abbreviation addr := positive.
Abbreviation heap := (gmap positive (gmap string value)).

(** The dictionary an address refers to; an address that holds no object
    reads as the empty dictionary. *)
Definition deref (h : heap) (a : addr) : dict := default ∅ (h !! a).

(** [obj[key] = v] *)
Definition setitem (h : heap) (a : addr) (key : string) (v : value) : heap :=
  <[a := <[key := v]> (deref h a)]> h.

(** [obj.update(other)]: the entries of [other] are written into [obj]. *)
Definition dict_update (h : heap) (a other : addr) : heap :=
  <[a := deref h other ∪ deref h a]> h.

(** [state['time']], used as a [datetime]. *)
Definition state_time (h : heap) (s : addr) : result Z :=
  match deref h s !! "time"%string with
  | Some (VTime t) => Ok t
  | Some _ => Raise TypeError
  | None => Raise KeyError
  end.

(** ** Configuration: the adjustable variables (lines 20-40) *)

Record config := {
  dt : Z;
  duration : string;
  linearized : bool;
  ncout_freq : Z;
  plot_freq : Z;
  ntrunc : Z;
  diff_on : bool;
  k : Q;
  forcing_on : bool;
  damp_ts : Q;
  ncoutfile : string;
  append_nc : bool
}.

Definition defaults : config := {|
  dt := Time.minutes 15;
  duration := "10_00:00";
  linearized := true;
  ncout_freq := 6;
  plot_freq := 6;
  ntrunc := 42;
  diff_on := true;
  k := 23380000000000000 # 1;
  forcing_on := true;
  damp_ts := 147 # 10;
  ncoutfile := "realdata.nc";
  append_nc := false
|}.

(** ** The prognostics (lines 56-82) *)

(** The Gaussian forcing built by [Forcing.gaussian_tendencies]; the grid
    it is evaluated on is the state's and is left out. *)
Record gaussian := {
  centerlocs : list (Q * Q);
  amplitudes : list Q;
  widths : list Q;
  g_ntrunc : Z;
  g_linearized : bool
}.

Inductive prognostic :=
| LinearizedDynamics (n : Z)
| LinearizedDiffusion (kd : Q) (n : Z)
| LinearizedDamping (tau : Q)
| NonlinearDynamics (n : Z)
| NonlinearDiffusion (kd : Q) (n : Z)
| NonlinearDamping (tau : Q)
| Forcing (g : gaussian).

Inductive wrapped :=
| TendencyInDiagnosticsWrapper (p : prognostic) (label : string).

Definition forcing_prog (cfg : config) : prognostic :=
  Forcing {| centerlocs := [(35 # 1, 160 # 1); (35 # 1, 100 # 1)]%Q;
             amplitudes := [4 # 10000000000; -4 # 10000000000]%Q;
             widths := [7 # 1; 7 # 1]%Q;
             g_ntrunc := ntrunc cfg;
             g_linearized := linearized cfg |}.

Definition dynamics_prog (cfg : config) : prognostic :=
  if linearized cfg then LinearizedDynamics (ntrunc cfg)
  else NonlinearDynamics (ntrunc cfg).

Definition diffusion_prog (cfg : config) : prognostic :=
  if linearized cfg then LinearizedDiffusion (k cfg) (ntrunc cfg)
  else NonlinearDiffusion (k cfg) (ntrunc cfg).

Definition damping_prog (cfg : config) : prognostic :=
  if linearized cfg then LinearizedDamping (damp_ts cfg)
  else NonlinearDamping (damp_ts cfg).

(** The list is built by successive [append]s. *)
Definition prognostics (cfg : config) : list wrapped :=
  let ps := [TendencyInDiagnosticsWrapper (dynamics_prog cfg) "dynamics"] in
  let ps :=
    if diff_on cfg
    then ps ++ [TendencyInDiagnosticsWrapper (diffusion_prog cfg) "diffusion"]
    else ps in
  if forcing_on cfg
  then (ps ++ [TendencyInDiagnosticsWrapper (forcing_prog cfg) "forcing"])
          ++ [TendencyInDiagnosticsWrapper (damping_prog cfg) "damping"]
  else ps.

Definition is_damping (w : wrapped) : bool :=
  match w with
  | TendencyInDiagnosticsWrapper (LinearizedDamping _) _
  | TendencyInDiagnosticsWrapper (NonlinearDamping _) _ => true
  | _ => false
  end.

Definition is_diffusion (w : wrapped) : bool :=
  match w with
  | TendencyInDiagnosticsWrapper (LinearizedDiffusion _ _) _
  | TendencyInDiagnosticsWrapper (NonlinearDiffusion _ _) _ => true
  | _ => false
  end.

Definition is_forcing (w : wrapped) : bool :=
  match w with
  | TendencyInDiagnosticsWrapper (Forcing _) _ => true
  | _ => false
  end.

(** ** The run duration (lines 95-96) *)

Module Duration.

Definition is_sep (c : ascii) : bool :=
  (Ascii.eqb c "_" || Ascii.eqb c ":")%char.

(** [re.split('[_:]', s)]: one piece more than there are separators,
    empty pieces included. *)
Fixpoint re_split (s : string) : list string :=
  match s with
  | EmptyString => [EmptyString]
  | String c rest =>
      if is_sep c then EmptyString :: re_split rest
      else match re_split rest with
           | [] => [String c EmptyString]
           | w :: ws => String c w :: ws
           end
  end.

(** The characters [int] strips as white space, among the code points
    below 256 a [string] here is made of: tab to carriage return, the
    space, U+0085 and U+00A0.  The separators U+001C to U+001F are not
    among them. *)
Definition is_space (c : ascii) : bool :=
  let n := N_of_ascii c in
  ((9 <=? n) && (n <=? 13) || (n =? 32) || (n =? 133) || (n =? 160))%N.

Definition is_digit (c : ascii) : bool :=
  let n := N_of_ascii c in
  ((48 <=? n) && (n <=? 57))%N.

Fixpoint lstrip (s : string) : string :=
  match s with
  | String c rest => if is_space c then lstrip rest else s
  | EmptyString => EmptyString
  end.

Fixpoint rev_string (s acc : string) : string :=
  match s with
  | EmptyString => acc
  | String c rest => rev_string rest (String c acc)
  end.

Definition strip (s : string) : string :=
  rev_string (lstrip (rev_string (lstrip s) EmptyString)) EmptyString.

(** The value of a run of decimal digits, [None] on any other character. *)
Fixpoint digits (s : string) (acc : Z) : option Z :=
  match s with
  | EmptyString => Some acc
  | String c rest =>
      if is_digit c
      then digits rest (10 * acc + (Z.of_N (N_of_ascii c) - 48))
      else None
  end.

Definition unsigned (s : string) : result Z :=
  match s with
  | EmptyString => Raise ValueError
  | _ => match digits s 0 with
         | Some n => Ok n
         | None => Raise ValueError
         end
  end.

(** [int(s)] on a string without underscores (the pieces of [re_split]
    have none): white space is stripped, one sign is allowed, at least one
    decimal digit is required. *)
Definition int (s : string) : result Z :=
  match strip s with
  | String "+"%char rest => unsigned rest
  | String "-"%char rest => do n <- unsigned rest; Ok (- n)
  | t => unsigned t
  end.

End Duration.

(** ** The driver (lines 84-120) *)

(** What the run does to the outside world, in order.  [EvLoopTest t]
    logs one evaluation of the loop condition, on a state of time [t]. *)
Inductive event :=
| EvPlotMonitor
| EvRemove (path : string)
| EvNetCDFMonitor (path : string) (ps : list wrapped)
| EvLoopTest (t : Z)
| EvPrint (t : Z)
| EvNcStore (snapshot : dict)
| EvPltStore (snapshot : dict).

(** How the loop is left: the condition became false on the state at
    [s], or an exception went through. *)
Inductive outcome :=
| Finished (h : heap) (s : addr)
| Failed (e : exn).

(** A time stepper is an object with a private state of its own, in
    [S].  It is called on the heap with the address of the state and the
    time step; it returns its new private state, the heap it leaves
    behind and the addresses of the diagnostics and of the next state, or
    raises. *)
Abbreviation stepper_fn S := (S → heap → addr → Z → result (S * heap * addr * addr)).

(** [fhour]: [(t - idate).days*24 + (t - idate).seconds/3600], the
    division being Python 3's true division, in exact arithmetic. *)
Definition fhour (t idate : Z) : Q :=
  let delta := Time.sub t idate in
  (inject_Z (Time.days delta * 24) + (Time.seconds delta # 3600))%Q.

(** [fhour % freq == 0] *)
Definition on_cadence (fh : Q) (freq : Z) : result bool :=
  do r <- pymod fh freq; Ok (Qeq_bool r 0).

Section Driver.

Context {S : Type}.
Variable cfg : config.
Variable stepper : stepper_fn S.
Variables idate end_date : Z.

(** The body of the loop (lines 102-120): the events it emits and the
    stepper, heap and state it hands to the next test of the condition. *)
Definition iteration (st : S) (h : heap) (s : addr)
  : list event * result (S * heap * addr) :=
  match stepper st h s (dt cfg) with
  | Raise e => ([], Raise e)
  | Ok (st', h1, d, n) =>
    let h2 := dict_update h1 s d in
    match state_time h2 s with
    | Raise e => ([], Raise e)
    | Ok t =>
      let fh := fhour t idate in
      match on_cadence fh (ncout_freq cfg) with
      | Raise e => ([], Raise e)
      | Ok nc =>
        let ev1 := if nc then [EvPrint t; EvNcStore (deref h2 s)] else [] in
        match on_cadence fh (plot_freq cfg) with
        | Raise e => (ev1, Raise e)
        | Ok plt =>
          let ev2 := if plt then [EvPltStore (deref h2 s)] else [] in
          match Time.add t (dt cfg) with
          | Raise e => (ev1 ++ ev2, Raise e)
          | Ok tn => (ev1 ++ ev2, Ok (st', setitem h2 n "time" (VTime tn), n))
          end
        end
      end
    end
  end.

(** [while state['time'] <= end_date: ...].  The events emitted so far
    are always returned; the outcome is [None] when the fuel runs out
    before the loop is left. *)
Fixpoint integrate (fuel : nat) (st : S) (h : heap) (s : addr)
  : list event * option outcome :=
  match fuel with
  | O => ([], None)
  | Datatypes.S fuel' =>
    match state_time h s with
    | Raise e => ([], Some (Failed e))
    | Ok t =>
      if t <=? end_date then
        match iteration st h s with
        | (evs, Raise e) => (EvLoopTest t :: evs, Some (Failed e))
        | (evs, Ok (st', h', s')) =>
          let '(evs', o) := integrate fuel' st' h' s' in
          (EvLoopTest t :: evs ++ evs', o)
        end
      else ([EvLoopTest t], Some (Finished h s))
    end
  end.

End Driver.

(** The files of the output directory. *)
Definition isfile (fs : gset string) (path : string) : bool :=
  bool_decide (path ∈ fs).

Record run := {
  files : gset string;
  trace : list event;
  final : option outcome
}.

Section Main.

Context {S : Type}.
Variable cfg : config.
(** [Leapfrog(prognostics)] and the call of the object it makes. *)
Variable Leapfrog : list wrapped → S.
Variable stepper : stepper_fn S.

(** Lines 88-92: the plot monitor, the removal of an earlier output
    file, the NetCDF monitor. *)
Definition monitors (fs : gset string) : gset string * list event :=
  let '(fs', rm) :=
    if isfile fs (ncoutfile cfg) && negb (append_nc cfg)
    then (fs ∖ {[ncoutfile cfg]}, [EvRemove (ncoutfile cfg)])
    else (fs, []) in
  (fs', [EvPlotMonitor] ++ rm ++ [EvNetCDFMonitor (ncoutfile cfg) (prognostics cfg)]).

(** Lines 95-96: the three pieces are unpacked, then [state['time']] is
    read, the pieces are converted and the sum is formed. *)
Definition end_of_run (h : heap) (s : addr) : result Z :=
  match Duration.re_split (duration cfg) with
  | [d; hh; m] =>
    match deref h s !! "time"%string with
    | None => Raise KeyError
    | Some v =>
      do d' <- Duration.int d;
      do h' <- Duration.int hh;
      do m' <- Duration.int m;
      do td <- Time.timedelta d' h' m';
      match v with
      | VTime t => Time.add t td
      | _ => Raise TypeError
      end
    end
  | _ => Raise ValueError
  end.

(** The script from line 84 on, started on the initial state at [s]. *)
Definition main (fuel : nat) (fs : gset string) (h : heap) (s : addr) : run :=
  let st := Leapfrog (prognostics cfg) in
  let '(fs', evs) := monitors fs in
  match end_of_run h s with
  | Raise e => {| files := fs'; trace := evs; final := Some (Failed e) |}
  | Ok end_date =>
    match state_time h s with
    | Raise e => {| files := fs'; trace := evs; final := Some (Failed e) |}
    | Ok idate =>
      let '(evs', o) := integrate cfg stepper idate end_date fuel st h s in
      {| files := fs'; trace := evs ++ evs'; final := o |}
    end
  end.

End Main.

(** ** The leapfrog time stepper *)

Module Leapfrog.

(** Modelled from the spec: [Leapfrog] is imported from [sympl] and the
    components from the package [barotropy]; the driver constructs and
    calls them, their code is not part of it.  This module follows
    section 4.4 of the specification, with fields as flattened grids of
    exact rationals in place of arrays of floats. *)
Abbreviation field := (list Q).
Abbreviation fields := (gmap string (list Q)).

(** Modelled from the spec: the sum of two fields and the product of a
    field by a scalar, point by point. *)
Definition fadd (a b : field) : field := zip_with Qplus a b.
Definition fscale (c : Q) (a : field) : field := map (Qmult c) a.

(** Modelled from the spec: the tendency components (package
    [barotropy]) are not part of the driver.  A component is a pure
    function from the state to named tendency fields and named
    diagnostic fields. *)
Record component := { evaluate : dict → fields * fields }.

(** Modelled from the spec: tendencies of one quantity are summed, and
    two fields of one quantity with different shapes are a collision. *)
Definition same_shape (a b : fields) : bool :=
  bool_decide (map_Forall (λ _ (p : field * field), length p.1 = length p.2)
                          (map_zip_with pair a b)).

Definition sum_tendencies (a b : fields) : result fields :=
  if same_shape a b
  then Ok (union_with (λ f g, Some (fadd f g)) a b)
  else Raise NameCollisionError.

(** Modelled from the spec: diagnostics are merged into one mapping, and
    a key emitted twice is a collision. *)
Definition merge_diagnostics (a b : fields) : result fields :=
  if decide (a ##ₘ b) then Ok (a ∪ b) else Raise NameCollisionError.

(** Modelled from the spec: step 1, every component is evaluated on the
    state, in the configured order. *)
Fixpoint evaluate_all (cs : list component) (state : dict) (acc : fields * fields)
  : result (fields * fields) :=
  match cs with
  | [] => Ok acc
  | c :: cs' =>
      let '(t, d) := evaluate c state in
      do t' <- sum_tendencies acc.1 t;
      do d' <- merge_diagnostics acc.2 d;
      evaluate_all cs' state (t', d')
  end.

(** Modelled from the spec: the time step in seconds,
    [dt.total_seconds()]. *)
Definition seconds (dt : Z) : Q := (inject_Z dt / inject_Z Time.us_per_second)%Q.

(** Modelled from the spec: the vorticity is the evolved quantity of the
    state. *)
Definition vorticity_of (state : dict) : result field :=
  match state !! "vorticity"%string with
  | Some (VField v) => Ok v
  | Some _ => Raise TypeError
  | None => Raise KeyError
  end.

(** Modelled from the spec: the Robert-Asselin filter of the level [v]
    between [v_old] and [v_new], [v + nu * (v_old - 2 v + v_new)]. *)
Definition filter (nu : Q) (v_old v v_new : field) : field :=
  fadd v (fscale nu (fadd (fadd v_old (fscale (-2 # 1) v)) v_new)).

Section Step.

(** The balance relation of the spectral transform library: the
    stream function and the two wind components of a vorticity. *)
Variable balance : field → result (field * field * field).

(** Modelled from the spec: the stepper is built on its components
    and the coefficient of the Robert-Asselin filter, fixed for its
    life; what it keeps from call to call is the filtered vorticity of
    the previous time level, absent before the first step. *)
Variable components : list component.
Variable asselin : Q.

(** Modelled from the spec: [step(state, dt)], section 4.4 — the
    stepper is [sympl]'s, the driver only calls it.  The first step
    has no previous level and is a forward Euler step. *)
Definition step (previous : option field) (state : dict) (dt : Z)
  : result (dict * dict * option field) :=
  do (tends, diags) <- evaluate_all components state (∅, ∅);
  do v <- vorticity_of state;
  let tend := default (map (λ _, 0%Q) v) (tends !! "vorticity"%string) in
  let v_new :=
    match previous with
    | Some v_old => fadd v_old (fscale (2 * seconds dt) tend)
    | None => fadd v (fscale (seconds dt) tend)
    end in
  let v_kept :=
    match previous with
    | Some v_old => filter asselin v_old v v_new
    | None => v
    end in
  do (psi, u, w) <- balance v_new;
  let next : dict :=
    <["vorticity"%string := VField v_new]>
      (<["streamfunction"%string := VField psi]>
         (<["u_wind"%string := VField u]>
            ({[ "v_wind"%string := VField w ]}))) in
  Ok (VField <$> diags, next, Some v_kept).

(** Modelled from the spec: the stepper as the driver calls it.  A step
    makes new values and mutates nothing it is given: the diagnostics and
    the next state are two new dictionaries on the heap. *)
Definition call : stepper_fn (option field) := λ previous h s dt,
  do (diags, next, kept) <- step previous (deref h s) dt;
  let d := fresh (dom h) in
  let h1 := <[d := diags]> h in
  let n := fresh (dom h1) in
  Ok (kept, <[n := next]> h1, d, n).

End Step.

End Leapfrog.

(** ** Concrete inputs *)

Module Example.

(** A forcing that returns the same tendency on every call, on a grid
    of two points. *)
Definition forcing : Leapfrog.component :=
  {| Leapfrog.evaluate := λ _,
       ({[ "vorticity"%string := [1 # 4; 0 # 1]%Q ]},
        {[ "forcing_tendency"%string := [1 # 4; 0 # 1]%Q ]}) |}.

Definition still (v : list Q) : result (list Q * list Q * list Q) :=
  Ok (map (λ _, 0%Q) v, map (λ _, 0%Q) v, map (λ _, 0%Q) v).

(** [Leapfrog(prognostics)]: a new stepper has no previous level. *)
Definition leapfrog (_ : list wrapped) : option (list Q) := None.

Definition stepper : stepper_fn (option (list Q)) :=
  Leapfrog.call still [forcing] (1 # 25).

Definition state0 : dict :=
  <["time"%string := VTime 0]> {[ "vorticity"%string := VField [0 # 1; 0 # 1]%Q ]}.

Definition heap0 : heap := {[ 1%positive := state0 ]}.

(** Nine hours in steps of three, output every six hours. *)
Definition short : config := {|
  dt := Time.hours 3;
  duration := "0_09:00";
  linearized := true;
  ncout_freq := 6;
  plot_freq := 6;
  ntrunc := 42;
  diff_on := true;
  k := 23380000000000000 # 1;
  forcing_on := false;
  damp_ts := 147 # 10;
  ncoutfile := "realdata.nc";
  append_nc := false
|}.

(** The first call of the stepper in that run, and the first
    iteration of the loop. *)
Definition first_call : option (list Q) * heap * addr * addr :=
  match stepper None heap0 1 (dt short) with
  | Ok r => r
  | Raise _ => (None, ∅, 1%positive, 1%positive)
  end.

Definition first_events : list event :=
  (iteration short stepper 0 None heap0 1).1.

Definition first_handed : option (list Q) * heap * addr :=
  match (iteration short stepper 0 None heap0 1).2 with
  | Ok r => r
  | Raise _ => (None, ∅, 1%positive)
  end.

End Example.

(** * The vocabulary of the properties *)

(** ** Configurations and traces *)

(** The NetCDF monitor stored a state. *)
Definition nc_stored (evs : list event) : Prop :=
  ∃ snap, In (EvNcStore snap) evs.

(** The configuration with another run duration. *)
Definition with_duration (cfg : config) (s : string) : config := {|
  dt := dt cfg; duration := s; linearized := linearized cfg;
  ncout_freq := ncout_freq cfg; plot_freq := plot_freq cfg;
  ntrunc := ntrunc cfg; diff_on := diff_on cfg; k := k cfg;
  forcing_on := forcing_on cfg; damp_ts := damp_ts cfg;
  ncoutfile := ncoutfile cfg; append_nc := append_nc cfg
|}.

(** The events that make a monitor. *)
Definition is_monitor (e : event) : bool :=
  match e with
  | EvPlotMonitor | EvNetCDFMonitor _ _ => true
  | _ => false
  end.

(** Every removal in the trace comes before every monitor. *)
Definition removal_first (evs : list event) : Prop :=
  ∀ pre path post, evs = pre ++ EvRemove path :: post →
    ∀ e, In e pre → is_monitor e = false.

(** ** Run durations *)

Definition is_ok {A} (r : result A) : bool :=
  match r with Ok _ => true | Raise _ => false end.

(** The strings the driver accepts: three pieces, each one an [int]. *)
Definition accepted (s : string) : bool :=
  match Duration.re_split s with
  | [d; h; m] =>
      is_ok (Duration.int d) && is_ok (Duration.int h) && is_ok (Duration.int m)
  | _ => false
  end.

(** The longest run of digits a string starts with, and what follows. *)
Fixpoint spec_digits (s : string) : string * string :=
  match s with
  | String c rest =>
      if Duration.is_digit c
      then let '(ds, tl) := spec_digits rest in (String c ds, tl)
      else (EmptyString, s)
  | EmptyString => (EmptyString, EmptyString)
  end.

Definition nonempty (s : string) : bool :=
  match s with EmptyString => false | _ => true end.

(** The form the specification gives, in its words,
    "<days>_<hours>:<minutes>" with integer parts: a run of digits, an
    underscore, a run of digits, a colon, a run of digits. *)
Definition spec_duration_form (s : string) : bool :=
  let '(d, r1) := spec_digits s in
  match r1 with
  | String "_"%char r2 =>
      let '(h, r3) := spec_digits r2 in
      match r3 with
      | String ":"%char r4 =>
          let '(m, r5) := spec_digits r4 in
          nonempty d && nonempty h && nonempty m && negb (nonempty r5)
      | _ => false
      end
  | _ => false
  end.

(** ** The loop *)

(** The loop condition was evaluated at least once. *)
Definition has_loop_test (evs : list event) : Prop :=
  ∃ t, In (EvLoopTest t) evs.

(** The contract the loop relies on: a call of the stepper followed by
    the merge of its diagnostics leaves the time of the current state as
    it was. *)
Definition keeps_time {S} (stepper : stepper_fn S) : Prop :=
  ∀ st h s dt st' h1 d n t,
    state_time h s = Ok t →
    stepper st h s dt = Ok (st', h1, d, n) →
    state_time (dict_update h1 s d) s = Ok t.

(** The times on which the loop condition was evaluated, in order. *)
Fixpoint loop_times (evs : list event) : list Z :=
  match evs with
  | [] => []
  | EvLoopTest t :: rest => t :: loop_times rest
  | _ :: rest => loop_times rest
  end.

(** [t, t + dt, ..., t + (k - 1) dt] *)
Fixpoint progression (t dt : Z) (k : nat) : list Z :=
  match k with
  | O => []
  | Datatypes.S k' => t :: progression (t + dt) dt k'
  end.

(** How a loop may be left: on a state past the end date, or on an
    exception. *)
Definition left_properly (end_date : Z) (o : outcome) : Prop :=
  match o with
  | Finished h s => ∃ t, state_time h s = Ok t ∧ end_date < t
  | Failed _ => True
  end.

(** ** The merge *)

(** The merge reading of the iteration: the dictionary of the current
    state is, after the iteration, what the stepper left. *)
Definition merge_copies {S} (cfg : config) (stepper : stepper_fn S)
    (idate : Z) (st : S) (h : heap) (s : addr) : Prop :=
  ∀ st' h1 d n evs st2 h2 s2,
    stepper st h s (dt cfg) = Ok (st', h1, d, n) →
    iteration cfg stepper idate st h s = (evs, Ok (st2, h2, s2)) →
    deref h2 s = deref h1 s.

(** Equality of dictionaries is decidable. *)
#[global] Instance Q_eq_dec : EqDecision Q.
Proof. solve_decision. Defined.

#[global] Instance value_eq_dec : EqDecision value.
Proof. solve_decision. Defined.

(** The same reading, checked on one iteration. *)
Definition state_untouched {S} (cfg : config) (stepper : stepper_fn S)
    (idate : Z) (st : S) (h : heap) (s : addr) : bool :=
  match stepper st h s (dt cfg), (iteration cfg stepper idate st h s).2 with
  | Ok (_, h1, _, _), Ok (_, h2, _) => bool_decide (deref h2 s = deref h1 s)
  | _, _ => true
  end.

(** ** Further vocabulary: traces, durations, prognostics *)

(** The plot monitor stored a state. *)
Definition plt_stored (evs : list event) : Prop :=
  ∃ snap, In (EvPltStore snap) evs.

(** The events of the body of the loop on a merged state of time [t]
    and contents [snap], for the outcomes [nc] and [plt] of the two
    cadence tests. *)
Definition body_events (t : Z) (snap : dict) (nc plt : bool) : list event :=
  (if nc then [EvPrint t; EvNcStore snap] else [])
  ++ (if plt then [EvPltStore snap] else []).

(** The states the monitors stored, in order. *)
Fixpoint snapshots (evs : list event) : list dict :=
  match evs with
  | [] => []
  | EvNcStore snap :: rest => snap :: snapshots rest
  | EvPltStore snap :: rest => snap :: snapshots rest
  | _ :: rest => snapshots rest
  end.

(** The number of underscores and colons of a string. *)
Fixpoint separators (s : string) : nat :=
  match s with
  | EmptyString => O
  | String c rest =>
      if Duration.is_sep c then Datatypes.S (separators rest) else separators rest
  end.

(** No underscore and no colon. *)
Fixpoint sep_free (s : string) : bool :=
  match s with
  | EmptyString => true
  | String c rest => negb (Duration.is_sep c) && sep_free rest
  end.

(** The pieces of a string, joined without their separators. *)
Definition glue (pieces : list string) : string :=
  fold_right String.append EmptyString pieces.

(** A string without its separators. *)
Fixpoint drop_separators (s : string) : string :=
  match s with
  | EmptyString => EmptyString
  | String c rest =>
      if Duration.is_sep c then drop_separators rest
      else String c (drop_separators rest)
  end.

(** The label a prognostic is wrapped with. *)
Definition label_of (w : wrapped) : string :=
  match w with TendencyInDiagnosticsWrapper _ l => l end.

(** Whether a prognostic is of the linearized kind. *)
Definition linearized_kind (w : wrapped) : bool :=
  match w with
  | TendencyInDiagnosticsWrapper (LinearizedDynamics _) _
  | TendencyInDiagnosticsWrapper (LinearizedDiffusion _ _) _
  | TendencyInDiagnosticsWrapper (LinearizedDamping _) _ => true
  | TendencyInDiagnosticsWrapper (Forcing g) _ => g_linearized g
  | _ => false
  end.

(** The configuration with another time step. *)
Definition with_dt (cfg : config) (step : Z) : config := {|
  dt := step; duration := duration cfg; linearized := linearized cfg;
  ncout_freq := ncout_freq cfg; plot_freq := plot_freq cfg;
  ntrunc := ntrunc cfg; diff_on := diff_on cfg; k := k cfg;
  forcing_on := forcing_on cfg; damp_ts := damp_ts cfg;
  ncoutfile := ncoutfile cfg; append_nc := append_nc cfg
|}.

(** The configuration with other output frequencies. *)
Definition with_freqs (cfg : config) (nc plt : Z) : config := {|
  dt := dt cfg; duration := duration cfg; linearized := linearized cfg;
  ncout_freq := nc; plot_freq := plt;
  ntrunc := ntrunc cfg; diff_on := diff_on cfg; k := k cfg;
  forcing_on := forcing_on cfg; damp_ts := damp_ts cfg;
  ncoutfile := ncoutfile cfg; append_nc := append_nc cfg
|}.

(** A heap with one state, of time [t], at address 1. *)
Definition heap_at (t : Z) : heap :=
  {[ 1%positive := <["time"%string := VTime t]>
                     {[ "vorticity"%string := VField [0 # 1; 0 # 1]%Q ]} ]}.

(** A stepper that computes nothing: it hands back the state it was
    given, as diagnostics and as next state. *)
Definition idle : stepper_fn unit := λ st h s _, Ok (st, h, s, s).

(** A stepper whose diagnostics carry an entry called ['time']. *)
Definition clock_writer (v : value) : stepper_fn unit := λ st h s _,
  let d := fresh (dom h) in
  Ok (st, <[d := {[ "time"%string := v ]}]> h, d, d).

(** * Properties *)

(** ** The configured run *)

(** With the values of the script every prognostic is in the list. *)
Example defaults_prognostics :
  prognostics defaults
  = [TendencyInDiagnosticsWrapper (LinearizedDynamics 42) "dynamics";
     TendencyInDiagnosticsWrapper (LinearizedDiffusion (k defaults) 42) "diffusion";
     TendencyInDiagnosticsWrapper (forcing_prog defaults) "forcing";
     TendencyInDiagnosticsWrapper (LinearizedDamping (147 # 10)) "damping"].
Proof. reflexivity. Qed.

(** ['10_00:00'] is ten days, 960 steps of a quarter of an hour. *)
Example defaults_duration :
  Duration.re_split (duration defaults) = ["10"; "00"; "00"]%string
  ∧ end_of_run defaults Example.heap0 1 = Ok (10 * Time.us_per_day)
  ∧ 10 * Time.us_per_day = 960 * dt defaults.
Proof. repeat split; reflexivity. Qed.

(** A quarter of an hour is not on the cadence, six hours are. *)
Example quarter_hour_off_cadence :
  on_cadence (fhour (Time.minutes 15) 0) 6 = Ok false
  ∧ on_cadence (fhour (Time.hours 6) 0) 6 = Ok true
  ∧ on_cadence (fhour (Time.hours 30 + Time.minutes 45) 0) 6 = Ok false.
Proof. repeat split; reflexivity. Qed.

(** ** Arithmetic of the cadence check *)

Lemma pymod_ok (x : Q) (n : Z) :
  n ≠ 0 →
  pymod x n = Ok (x - inject_Z n * inject_Z (Qfloor (x / inject_Z n)))%Q.
Proof.
  intros Hn. unfold pymod.
  destruct (Z.eqb_spec n 0) as [->|_]; [contradiction | reflexivity].
Qed.

Lemma inject_Z_nonzero (n : Z) : n ≠ 0 → ¬ (inject_Z n == 0)%Q.
Proof.
  intros Hn Heq. unfold Qeq in Heq. simpl in Heq. lia.
Qed.

(** The remainder is zero exactly on the integer multiples. *)
Lemma remainder_zero_iff (x : Q) (n : Z) :
  n ≠ 0 →
  (x - inject_Z n * inject_Z (Qfloor (x / inject_Z n)) == 0)%Q
  ↔ ∃ q : Z, (x == inject_Z (q * n))%Q.
Proof.
  intros Hn. pose proof (inject_Z_nonzero n Hn) as Hn'. split.
  - intros H. exists (Qfloor (x / inject_Z n)).
    assert (Hx : (x == (x - inject_Z n * inject_Z (Qfloor (x / inject_Z n)))
                      + inject_Z n * inject_Z (Qfloor (x / inject_Z n)))%Q) by ring.
    rewrite Hx at 1. rewrite H, inject_Z_mult. ring.
  - intros [q Hq].
    assert (Hdiv : (x / inject_Z n == inject_Z q)%Q).
    { rewrite Hq, inject_Z_mult. apply Qdiv_mult_l. exact Hn'. }
    rewrite Hdiv, Qfloor_Z, Hq, inject_Z_mult. ring.
Qed.

Lemma on_cadence_spec (x : Q) (n : Z) :
  n ≠ 0 →
  ∃ b, on_cadence x n = Ok b ∧ (b = true ↔ ∃ q : Z, (x == inject_Z (q * n))%Q).
Proof.
  intros Hn. unfold on_cadence. rewrite (pymod_ok x n Hn). simpl.
  eexists; split; [reflexivity|].
  rewrite Qeq_bool_iff. apply remainder_zero_iff, Hn.
Qed.

(** Whole hours after [idate] are counted exactly. *)
Lemma fhour_hours (idate e : Z) :
  (fhour (idate + Time.hours e) idate == inject_Z e)%Q.
Proof.
  unfold fhour, Time.sub, Time.days, Time.seconds, Time.hours,
    Time.us_per_day, Time.us_per_second.
  replace (idate + e * 3600 * 1000000 - idate) with (e * 3600000000) by lia.
  replace (86400 * 1000000) with (24 * 3600000000) by lia.
  rewrite Z.div_mul_cancel_r by lia.
  rewrite Z.mul_mod_distr_r by lia.
  replace (e `mod` 24 * 3600000000) with (e `mod` 24 * 3600 * 1000000) by lia.
  rewrite Z.div_mul by lia.
  unfold Qeq, Qplus, inject_Z. simpl Qnum. simpl Qden.
  pose proof (Z.div_mod e 24 ltac:(lia)) as Hdm.
  lia.
Qed.

(** ** The loop body *)

(** The events of one iteration whose stepper call and time look-up
    succeed: the NetCDF events of the cadence test, then the others. *)
Lemma iteration_events {S} (cfg : config) (stepper : stepper_fn S) (idate : Z)
    (st st' : S) (h h1 : heap) (s d n : addr) (t : Z) (nc : bool) :
  stepper st h s (dt cfg) = Ok (st', h1, d, n) →
  state_time (dict_update h1 s d) s = Ok t →
  on_cadence (fhour t idate) (ncout_freq cfg) = Ok nc →
  ∃ rest,
    (iteration cfg stepper idate st h s).1
    = (if nc then [EvPrint t; EvNcStore (deref (dict_update h1 s d) s)] else []) ++ rest
    ∧ ¬ nc_stored rest.
Proof.
  intros Hstep Htime Hnc. unfold iteration. rewrite Hstep, Htime, Hnc.
  destruct (on_cadence (fhour t idate) (plot_freq cfg)) as [plt|e]; simpl.
  - destruct (Time.add t (dt cfg)); simpl;
      (eexists; split; [reflexivity|]);
      intros [snap Hin]; destruct plt; simpl in Hin;
      intuition discriminate.
  - exists []. split; [by rewrite app_nil_r|]. intros [snap []].
Qed.

(** C2: in an iteration, the NetCDF monitor stores the state exactly when
    the elapsed hours, whole days times 24 plus remaining seconds over
    3600, are an integer multiple of [ncout_freq]; with a frequency of 6,
    elapsed hours 0, 6, 12 and 18 store, and 3 and 9 do not and raise
    nothing in the test. *)
Theorem nc_store_cadence {S} (cfg : config) (stepper : stepper_fn S) (idate : Z)
    (st st' : S) (h h1 : heap) (s d n : addr) (t : Z) :
  ncout_freq cfg ≠ 0 →
  stepper st h s (dt cfg) = Ok (st', h1, d, n) →
  state_time (dict_update h1 s d) s = Ok t →
  let evs := (iteration cfg stepper idate st h s).1 in
  (nc_stored evs ↔ ∃ q : Z, (fhour t idate == inject_Z (q * ncout_freq cfg))%Q)
  ∧ (nc_stored evs → In (EvNcStore (deref (dict_update h1 s d) s)) evs)
  ∧ (∀ e, ncout_freq cfg = 6 → t = idate + Time.hours e →
          In e [0; 6; 12; 18] → nc_stored evs)
  ∧ (∀ e, ncout_freq cfg = 6 → t = idate + Time.hours e →
          In e [3; 9] →
          ¬ nc_stored evs ∧ on_cadence (fhour t idate) (ncout_freq cfg) = Ok false).
Proof.
  intros Hfreq Hstep Htime evs.
  destruct (on_cadence_spec (fhour t idate) (ncout_freq cfg) Hfreq) as (nc & Hnc & Hiff).
  destruct (iteration_events cfg stepper idate st st' h h1 s d n t nc Hstep Htime Hnc)
    as (rest & Hevs & Hrest).
  fold evs in Hevs.
  assert (Hstored : nc_stored evs ↔ nc = true).
  { rewrite Hevs. split.
    - intros [snap Hin]. apply in_app_or in Hin as [Hin|Hin].
      + destruct nc; [reflexivity | destruct Hin].
      + exfalso. apply Hrest. by exists snap.
    - intros ->. eexists. simpl. right; left; reflexivity. }
  assert (Hmult : ∀ e, ncout_freq cfg = 6 → t = idate + Time.hours e →
            (nc = true ↔ ∃ q : Z, e = q * 6)).
  { intros e H6 ->. rewrite Hiff, H6. split; intros [q Hq]; exists q.
    - rewrite fhour_hours in Hq. unfold Qeq in Hq. simpl in Hq. lia.
    - rewrite fhour_hours, Hq. reflexivity. }
  assert (Hskip : ∀ e, ncout_freq cfg = 6 → t = idate + Time.hours e →
            In e [3; 9] → nc = false).
  { intros e H6 Ht He. destruct nc; [|reflexivity].
    destruct (proj1 (Hmult e H6 Ht) eq_refl) as [q Hq].
    simpl in He. destruct He as [<-|[<-|[]]]; lia. }
  split; [|split; [|split]].
  - rewrite Hstored. apply Hiff.
  - rewrite Hstored. intros ->. rewrite Hevs. simpl. right; left; reflexivity.
  - intros e H6 Ht He. apply Hstored, (Hmult e H6 Ht).
    simpl in He. destruct He as [<-|[<-|[<-|[<-|[]]]]];
      [exists 0 | exists 1 | exists 2 | exists 3]; reflexivity.
  - intros e H6 Ht He. specialize (Hskip e H6 Ht He). subst nc. split.
    + rewrite Hstored. discriminate.
    + exact Hnc.
Qed.

(** ** The list of prognostics *)

(** C8: the damping is in the list handed to the stepper exactly when the
    forcing is on, whatever the damping time scale; the diffusion is in
    it exactly when [diff_on] is set. *)
Theorem damping_iff_forcing (cfg : config) :
  ((∃ w, In w (prognostics cfg) ∧ is_damping w = true) ↔ forcing_on cfg = true)
  ∧ ((∃ w, In w (prognostics cfg) ∧ is_diffusion w = true) ↔ diff_on cfg = true)
  ∧ ((∃ w, In w (prognostics cfg) ∧ is_forcing w = true) ↔ forcing_on cfg = true)
  ∧ (forcing_on cfg = false →
     prognostics cfg
     = TendencyInDiagnosticsWrapper (dynamics_prog cfg) "dynamics"
       :: (if diff_on cfg
           then [TendencyInDiagnosticsWrapper (diffusion_prog cfg) "diffusion"]
           else [])).
Proof.
  assert (Hdamp : existsb is_damping (prognostics cfg) = forcing_on cfg).
  { unfold prognostics, damping_prog, diffusion_prog, dynamics_prog.
    by destruct (forcing_on cfg), (diff_on cfg), (linearized cfg). }
  assert (Hdiff : existsb is_diffusion (prognostics cfg) = diff_on cfg).
  { unfold prognostics, damping_prog, diffusion_prog, dynamics_prog.
    by destruct (forcing_on cfg), (diff_on cfg), (linearized cfg). }
  assert (Hforc : existsb is_forcing (prognostics cfg) = forcing_on cfg).
  { unfold prognostics, damping_prog, diffusion_prog, dynamics_prog.
    by destruct (forcing_on cfg), (diff_on cfg), (linearized cfg). }
  rewrite <- !existsb_exists, Hdamp, Hdiff, Hforc.
  repeat split; try tauto.
  intros Hoff. unfold prognostics. rewrite Hoff.
  by destruct (diff_on cfg).
Qed.

(** ** The monitors and the output file *)

(** The set-up of the monitors is where [main] starts. *)
Lemma main_starts_with_monitors {S} (cfg : config) (L : list wrapped → S)
    (stepper : stepper_fn S) (fuel : nat) (fs : gset string) (h : heap) (s : addr) :
  files (main cfg L stepper fuel fs h s) = (monitors cfg fs).1
  ∧ ∃ rest, trace (main cfg L stepper fuel fs h s) = (monitors cfg fs).2 ++ rest.
Proof.
  unfold main. destruct (monitors cfg fs) as [fs' evs]. simpl.
  destruct (end_of_run cfg h s) as [end_date|e]; simpl.
  - destruct (state_time h s) as [idate|e]; simpl.
    + destruct (integrate _ _ _ _ _ _ _ _) as [evs' o]. simpl.
      split; [reflexivity | by exists evs'].
    + split; [reflexivity | exists []; by rewrite app_nil_r].
  - split; [reflexivity | exists []; by rewrite app_nil_r].
Qed.

(** C9, on an input: the output file of the earlier run is removed after
    the plot monitor has been made. *)
Lemma removal_follows_plot_monitor :
  ¬ removal_first (monitors Example.short {[ "realdata.nc"%string ]}).2.
Proof.
  intros H.
  specialize (H [EvPlotMonitor] "realdata.nc"%string
                [EvNetCDFMonitor "realdata.nc" (prognostics Example.short)]
                eq_refl EvPlotMonitor (or_introl eq_refl)).
  discriminate H.
Qed.

(** C9, amended: after the plot monitor and before the NetCDF monitor are
    made, an existing output file is removed when [append_nc] is off;
    when [append_nc] is on or there is no such file, nothing is removed. *)
Theorem output_file_removal (cfg : config) (fs : gset string) :
  let path := ncoutfile cfg in
  let fs' := (monitors cfg fs).1 in
  let evs := (monitors cfg fs).2 in
  (path ∈ fs ∧ append_nc cfg = false →
     (path ∉ fs') ∧ (∀ p, p ≠ path → (p ∈ fs' ↔ p ∈ fs))
     ∧ evs = [EvPlotMonitor; EvRemove path; EvNetCDFMonitor path (prognostics cfg)])
  ∧ ((path ∉ fs) ∨ append_nc cfg = true →
     fs' = fs
     ∧ evs = [EvPlotMonitor; EvNetCDFMonitor path (prognostics cfg)]).
Proof.
  unfold monitors, isfile. split.
  - intros [Hin Happ]. rewrite Happ, bool_decide_true by done. simpl.
    split; [|split; [|reflexivity]].
    + rewrite elem_of_difference, elem_of_singleton. tauto.
    + intros p Hp. rewrite elem_of_difference, elem_of_singleton. tauto.
  - intros [Hnin|Happ].
    + rewrite bool_decide_false by done. simpl. done.
    + rewrite Happ, andb_false_r. simpl. done.
Qed.

(** ** The run duration *)

(** C7, on inputs: a string that is not of the specification's form is
    accepted when it splits into three integers, and a string that does
    not raises [ValueError]. *)
Lemma invalid_duration_not_configuration_error :
  let run s := main (with_duration Example.short s) Example.leapfrog
                 Example.stepper 3 ∅ Example.heap0 1 in
  spec_duration_form "0:03:00" = false
  ∧ (∃ h s, final (run "0:03:00"%string) = Some (Finished h s))
  ∧ spec_duration_form "ten days" = false
  ∧ final (run "ten days"%string) = Some (Failed ValueError)
  ∧ final (run "ten days"%string) ≠ Some (Failed ConfigurationError).
Proof.
  simpl. split; [reflexivity|]. split.
  - eexists _, _. vm_compute. reflexivity.
  - split; [reflexivity|]. split; [vm_compute; reflexivity|].
    vm_compute. discriminate.
Qed.

Lemma end_of_run_rejects (cfg : config) (h : heap) (s : addr) :
  accepted (duration cfg) = false →
  is_Some (deref h s !! "time"%string) →
  end_of_run cfg h s = Raise ValueError.
Proof.
  intros Hacc [v Hv]. unfold end_of_run, accepted in *.
  destruct (Duration.re_split (duration cfg)) as [|d [|hh [|m [|? ?]]]];
    try reflexivity.
  rewrite Hv.
  assert (Hint : ∀ x, is_ok (Duration.int x) = false → Duration.int x = Raise ValueError).
  { intros x. unfold Duration.int, Duration.unsigned.
    destruct (Duration.strip x) as [|c r]; [reflexivity|].
    repeat (match goal with
            | |- context [match ?a with _ => _ end] => destruct a
            end; simpl; try reflexivity; try discriminate). }
  destruct (Duration.int d) eqn:Hd; simpl in *.
  - destruct (Duration.int hh) eqn:Hh; simpl in *.
    + rewrite (Hint m Hacc). reflexivity.
    + rewrite <- Hh, (Hint hh); [reflexivity | by rewrite Hh].
  - rewrite <- Hd, (Hint d); [reflexivity | by rewrite Hd].
Qed.

(** C7, amended: when the duration does not split at its underscores and
    colons into exactly three pieces that [int] accepts, the run raises
    [ValueError] once the monitors are set up and before the first test
    of the loop condition: no iteration is run. *)
Theorem invalid_duration_raises {S} (cfg : config) (L : list wrapped → S)
    (stepper : stepper_fn S) (fuel : nat) (fs : gset string) (h : heap) (s : addr) :
  accepted (duration cfg) = false →
  is_Some (deref h s !! "time"%string) →
  let r := main cfg L stepper fuel fs h s in
  final r = Some (Failed ValueError)
  ∧ trace r = (monitors cfg fs).2
  ∧ ¬ has_loop_test (trace r).
Proof.
  intros Hacc Htime. unfold main.
  rewrite (end_of_run_rejects cfg h s Hacc Htime).
  unfold monitors.
  destruct (isfile fs (ncoutfile cfg) && negb (append_nc cfg)); simpl;
    (split; [reflexivity|]; split; [reflexivity|]);
    intros [t Hin]; simpl in Hin; intuition discriminate.
Qed.

(** ** The integration loop *)

Lemma state_time_setitem (h : heap) (n : addr) (t : Z) :
  state_time (setitem h n "time" (VTime t)) n = Ok t.
Proof.
  unfold state_time, setitem, deref.
  rewrite lookup_insert_eq. simpl. by rewrite lookup_insert_eq.
Qed.

Lemma loop_times_app (a b : list event) :
  loop_times (a ++ b) = loop_times a ++ loop_times b.
Proof.
  induction a as [|e a IH]; [reflexivity|].
  destruct e; simpl; by rewrite IH.
Qed.

Section Loop.

Context {S : Type}.
Variable cfg : config.
Variable stepper : stepper_fn S.
Variables idate end_date : Z.
Hypothesis stepper_keeps_time : keeps_time stepper.

(** A completed iteration hands on a state one time step later. *)
Lemma iteration_advances (st st' : S) (h h' : heap) (s s' : addr)
    (t : Z) (evs : list event) :
  state_time h s = Ok t →
  iteration cfg stepper idate st h s = (evs, Ok (st', h', s')) →
  state_time h' s' = Ok (t + dt cfg)
  ∧ Time.add t (dt cfg) = Ok (t + dt cfg)
  ∧ loop_times evs = [].
Proof.
  intros Ht. unfold iteration.
  destruct (stepper st h s (dt cfg)) as [[[[st1 h1] d] n]|e] eqn:Hstep;
    [|discriminate].
  rewrite (stepper_keeps_time _ _ _ _ _ _ _ _ _ Ht Hstep).
  destruct (on_cadence _ (ncout_freq cfg)) as [nc|e]; [|discriminate].
  destruct (on_cadence _ (plot_freq cfg)) as [plt|e]; [|discriminate].
  destruct (Time.add t (dt cfg)) as [tn|e] eqn:Hadd; [|discriminate].
  intros [= <- <- <- <-].
  assert (tn = t + dt cfg) as ->.
  { unfold Time.add in Hadd.
    destruct (Time.date_in_range (t + dt cfg)); congruence. }
  split; [apply state_time_setitem|]. split; [reflexivity|].
  by destruct nc, plt.
Qed.

Lemma iteration_no_loop_test (st : S) (h : heap) (s : addr) :
  loop_times (iteration cfg stepper idate st h s).1 = [].
Proof.
  unfold iteration.
  destruct (stepper st h s (dt cfg)) as [[[[st1 h1] d] n]|e]; [|reflexivity].
  destruct (state_time _ s) as [t|e]; [|reflexivity].
  destruct (on_cadence _ (ncout_freq cfg)) as [nc|e]; [|reflexivity].
  destruct (on_cadence _ (plot_freq cfg)) as [plt|e];
    [destruct (Time.add t (dt cfg))|]; by destruct nc; try destruct plt.
Qed.

(** The loop tests form an arithmetic progression of step [dt]. *)
Lemma loop_times_progression (fuel : nat) (st : S) (h : heap) (s : addr) (t : Z) :
  state_time h s = Ok t →
  ∃ k, loop_times (integrate cfg stepper idate end_date fuel st h s).1
       = progression t (dt cfg) k.
Proof.
  revert st h s t. induction fuel as [|fuel IH]; intros st h s t Ht; simpl.
  - by exists O.
  - rewrite Ht. destruct (t <=? end_date).
    + destruct (iteration cfg stepper idate st h s) as [evs [[[st' h'] s']|e]] eqn:Hit.
      * destruct (iteration_advances _ _ _ _ _ _ _ _ Ht Hit) as (Ht' & _ & Hevs).
        destruct (IH st' h' s' _ Ht') as [k Hk].
        destruct (integrate _ _ _ _ _ _ _ _) as [evs' o]. simpl in *.
        exists (Datatypes.S k). by rewrite loop_times_app, Hevs, Hk.
      * exists 1%nat. simpl. f_equal.
        pose proof (iteration_no_loop_test st h s) as Hno.
        by rewrite Hit in Hno.
    + by exists 1%nat.
Qed.

(** With enough fuel the loop is left, and properly. *)
Lemma integrate_terminates (n : nat) (st : S) (h : heap) (s : addr) :
  0 < dt cfg →
  (∀ t, state_time h s = Ok t → end_date - t < Z.of_nat n * dt cfg) →
  ∃ o, (integrate cfg stepper idate end_date (Datatypes.S n) st h s).2 = Some o
       ∧ left_properly end_date o.
Proof.
  intros Hdt. revert st h s. induction n as [|n IH]; intros st h s Hbound;
    simpl; destruct (state_time h s) as [t|e] eqn:Ht;
    try (by eexists; split; [reflexivity | exact I]).
  - specialize (Hbound t eq_refl).
    destruct (Z.leb_spec t end_date); [lia|].
    eexists; split; [reflexivity|]. exists t. split; [done | lia].
  - specialize (Hbound t eq_refl).
    destruct (Z.leb_spec t end_date).
    + destruct (iteration cfg stepper idate st h s) as [evs [[[st' h'] s']|e]] eqn:Hit.
      * destruct (iteration_advances _ _ _ _ _ _ _ _ Ht Hit) as (Ht' & _ & _).
        destruct (IH st' h' s') as (o & Ho & Hgood).
        { intros t'. rewrite Ht'. intros [= <-]. lia. }
        simpl in Ho.
        destruct (match state_time h' s' with Ok _ => _ | Raise _ => _ end)
          as [evs' o'].
        simpl in *. by exists o.
      * eexists; split; [reflexivity | exact I].
    + eexists; split; [reflexivity|]. exists t. split; [done | lia].
Qed.

(** A loop left on a state has counted whole steps up to the first
    time past the end date. *)
Lemma integrate_finish_time (fuel : nat) (st : S) (h h' : heap) (s s' : addr) (t : Z) :
  state_time h s = Ok t →
  (integrate cfg stepper idate end_date fuel st h s).2 = Some (Finished h' s') →
  ∃ j : nat,
    state_time h' s' = Ok (t + Z.of_nat j * dt cfg)
    ∧ end_date < t + Z.of_nat j * dt cfg
    ∧ ∀ i : nat, (i < j)%nat → t + Z.of_nat i * dt cfg ≤ end_date.
Proof.
  revert st h s t. induction fuel as [|fuel IH]; intros st h s t Ht; simpl;
    [discriminate|].
  rewrite Ht. destruct (Z.leb_spec t end_date).
  - destruct (iteration cfg stepper idate st h s) as [evs [[[st1 h1] s1]|e]] eqn:Hit;
      [|discriminate].
    destruct (iteration_advances _ _ _ _ _ _ _ _ Ht Hit) as (Ht' & _ & _).
    specialize (IH st1 h1 s1 _ Ht').
    destruct (integrate _ _ _ _ _ _ _ _) as [evs' o]. simpl in *.
    intros Ho. destruct (IH Ho) as (j & Hj & Hend & Hbefore).
    exists (Datatypes.S j). split; [|split].
    + rewrite Hj. f_equal. lia.
    + lia.
    + intros [|i] Hi; [lia|]. specialize (Hbefore i ltac:(lia)). lia.
  - simpl. intros [= <- <-]. exists O. split; [|split].
    + rewrite Ht. f_equal. lia.
    + lia.
    + intros i Hi. lia.
Qed.

End Loop.

Lemma progression_lookup (t dt : Z) (k i : nat) (x : Z) :
  progression t dt k !! i = Some x → x = t + Z.of_nat i * dt.
Proof.
  revert t i. induction k as [|k IH]; intros t i; simpl; [done|].
  destruct i as [|i]; simpl.
  - intros [= <-]. lia.
  - intros Hx. apply IH in Hx. lia.
Qed.

(** C5: with a positive time step, and a stepper that leaves the time of
    the current state alone, the loop is left after finitely many
    iterations, whatever the fuel beyond that, and it is left either on a
    state past the end date or on an exception. *)
Theorem loop_terminates {S} (cfg : config) (stepper : stepper_fn S)
    (idate end_date : Z) (st : S) (h : heap) (s : addr) :
  0 < dt cfg →
  keeps_time stepper →
  ∃ fuel, ∀ fuel', (fuel ≤ fuel')%nat →
    ∃ o, (integrate cfg stepper idate end_date fuel' st h s).2 = Some o
         ∧ left_properly end_date o.
Proof.
  intros Hdt Hkeep.
  set (steps := match state_time h s with
                | Ok t => Z.to_nat ((end_date - t) / dt cfg + 1)
                | Raise _ => O
                end).
  exists (Datatypes.S steps). intros [|n] Hfuel; [lia|].
  apply (integrate_terminates cfg stepper idate end_date Hkeep n st h s Hdt).
  intros t Ht. subst steps. rewrite Ht in Hfuel.
  pose proof (Z.div_mod (end_date - t) (dt cfg) ltac:(lia)) as Hdm.
  pose proof (Z.mod_pos_bound (end_date - t) (dt cfg) Hdt) as Hmod.
  assert ((end_date - t) / dt cfg + 1 ≤ Z.of_nat n) by lia.
  nia.
Qed.

(** C6: the times of the states the loop goes through never decrease:
    each is the time of the one before plus the time step, which is
    positive. *)
Theorem time_nondecreasing {S} (cfg : config) (stepper : stepper_fn S)
    (idate end_date : Z) (fuel : nat) (st : S) (h : heap) (s : addr) :
  0 < dt cfg →
  keeps_time stepper →
  let ts := loop_times (integrate cfg stepper idate end_date fuel st h s).1 in
  (∀ i t t', ts !! i = Some t → ts !! Datatypes.S i = Some t' →
     t' = t + dt cfg ∧ t < t')
  ∧ (∀ i j t t', (i ≤ j)%nat → ts !! i = Some t → ts !! j = Some t' → t ≤ t').
Proof.
  intros Hdt Hkeep ts.
  assert (Hprog : ∃ t0 k, ts = progression t0 (dt cfg) k).
  { destruct (state_time h s) as [t0|e] eqn:Ht.
    - destruct (loop_times_progression cfg stepper idate end_date Hkeep fuel st h s t0 Ht)
        as [k Hk].
      by exists t0, k.
    - exists 0, O. subst ts. destruct fuel; simpl; [done|]. by rewrite Ht. }
  destruct Hprog as (t0 & k & ->). split.
  - intros i t t' Hi Hi'.
    apply progression_lookup in Hi, Hi'. lia.
  - intros i j t t' Hij Hi Hj.
    apply progression_lookup in Hi, Hj. nia.
Qed.

(** C10: the test of the loop is not strict.  On a state whose time is
    the end date the body runs once more, and the loop is then left on a
    state of time [end_date + dt]; a run whose length is a whole number of
    steps and which is left on a state is left on that time. *)
Theorem final_state_past_end {S} (cfg : config) (stepper : stepper_fn S)
    (idate end_date : Z) :
  0 < dt cfg →
  keeps_time stepper →
  (∀ st h s evs st' h' s',
     state_time h s = Ok end_date →
     iteration cfg stepper idate st h s = (evs, Ok (st', h', s')) →
     ∀ fuel, (2 ≤ fuel)%nat →
       integrate cfg stepper idate end_date fuel st h s
       = (EvLoopTest end_date :: evs ++ [EvLoopTest (end_date + dt cfg)],
          Some (Finished h' s'))
       ∧ state_time h' s' = Ok (end_date + dt cfg)
       ∧ end_date < end_date + dt cfg)
  ∧ (∀ fuel st h s t0 (steps : nat) h' s',
     state_time h s = Ok t0 →
     end_date = t0 + Z.of_nat steps * dt cfg →
     (integrate cfg stepper idate end_date fuel st h s).2 = Some (Finished h' s') →
     state_time h' s' = Ok (end_date + dt cfg)).
Proof.
  intros Hdt Hkeep. split.
  - intros st h s evs st' h' s' Ht Hit [|[|fuel]] Hfuel; try lia.
    destruct (iteration_advances cfg stepper idate Hkeep _ _ _ _ _ _ _ _ Ht Hit)
      as (Ht' & _ & _).
    split; [|split; [exact Ht' | lia]].
    simpl. rewrite Ht, Z.leb_refl, Hit, Ht'.
    destruct (Z.leb_spec (end_date + dt cfg) end_date); [lia|]. reflexivity.
  - intros fuel st h s t0 steps h' s' Ht Hend Hfin.
    destruct (integrate_finish_time cfg stepper idate end_date Hkeep
                fuel st h h' s s' t0 Ht Hfin) as (j & Hj & Hpast & Hbefore).
    assert (j = Datatypes.S steps) as ->.
    { assert (steps < j)%nat by nia.
      destruct (decide (j = Datatypes.S steps)) as [|Hne]; [done|].
      specialize (Hbefore (Datatypes.S steps) ltac:(lia)). nia. }
    rewrite Hj. f_equal. lia.
Qed.

(** ** The diagnostics merge *)

Lemma merge_copies_untouched {S} (cfg : config) (stepper : stepper_fn S)
    (idate : Z) (st : S) (h : heap) (s : addr) :
  merge_copies cfg stepper idate st h s → state_untouched cfg stepper idate st h s = true.
Proof.
  intros Hcopy. unfold state_untouched.
  destruct (stepper st h s (dt cfg)) as [[[[st' h1] d] n]|e] eqn:Hstep; [|reflexivity].
  destruct (iteration cfg stepper idate st h s) as [evs [[[st2 h2] s2]|e]] eqn:Hit;
    [|reflexivity].
  simpl. apply bool_decide_eq_true. by eapply Hcopy.
Qed.

Lemma deref_insert_eq (h : heap) (a : addr) (m : dict) :
  deref (<[a := m]> h) a = m.
Proof. unfold deref. by rewrite lookup_insert_eq. Qed.

Lemma deref_insert_ne (h : heap) (a b : addr) (m : dict) :
  a ≠ b → deref (<[a := m]> h) b = deref h b.
Proof. intros Hne. unfold deref. by rewrite lookup_insert_ne. Qed.

(** C4, amended: the merge writes the entries of the diagnostics into the
    dictionary of the current state, in place; besides that dictionary
    and the ['time'] entry of the dictionary returned as next state, the
    iteration leaves every object as the stepper left it. *)
Theorem merge_in_place {S} (cfg : config) (stepper : stepper_fn S) (idate : Z)
    (st st' st2 : S) (h h1 h2 : heap) (s d n s2 : addr) (evs : list event) :
  stepper st h s (dt cfg) = Ok (st', h1, d, n) →
  iteration cfg stepper idate st h s = (evs, Ok (st2, h2, s2)) →
  s2 = n
  ∧ (s ≠ n → deref h2 s = deref h1 d ∪ deref h1 s)
  ∧ (∃ tn, deref h2 n
           = <["time"%string := VTime tn]>
               (if decide (n = s) then deref h1 d ∪ deref h1 s else deref h1 n))
  ∧ (∀ a, a ≠ s → a ≠ n → h2 !! a = h1 !! a).
Proof.
  intros Hstep. unfold iteration. rewrite Hstep.
  destruct (state_time _ s) as [t|e]; [|discriminate].
  destruct (on_cadence _ (ncout_freq cfg)) as [nc|e]; [|discriminate].
  destruct (on_cadence _ (plot_freq cfg)) as [plt|e]; [|discriminate].
  destruct (Time.add t (dt cfg)) as [tn|e]; [|discriminate].
  intros [= <- <- <- <-]. unfold setitem, dict_update.
  split; [reflexivity|]. split; [|split].
  - intros Hne. rewrite deref_insert_ne by done. apply deref_insert_eq.
  - exists tn. rewrite deref_insert_eq. f_equal.
    destruct (decide (n = s)) as [->|Hne].
    + apply deref_insert_eq.
    + by rewrite deref_insert_ne.
  - intros a Has Han. by rewrite !lookup_insert_ne.
Qed.

(** ** The leapfrog step *)

Lemma lookup_map {A B} (f : A → B) (l : list A) (i : nat) :
  map f l !! i = f <$> (l !! i).
Proof.
  revert i. induction l as [|x l IH]; intros [|i]; simpl; auto.
Qed.

Lemma fadd_length (a b : list Q) :
  length a = length b → length (Leapfrog.fadd a b) = length a.
Proof.
  revert b. induction a as [|x a IH]; intros [|y b]; simpl; try done.
  intros [= Hlen]. by rewrite IH.
Qed.

Lemma fadd_fscale_lookup (a b : list Q) (c : Q) (i : nat) (x y : Q) :
  a !! i = Some x → b !! i = Some y →
  Leapfrog.fadd a (Leapfrog.fscale c b) !! i = Some (x + c * y)%Q.
Proof.
  intros Ha Hb. unfold Leapfrog.fadd, Leapfrog.fscale.
  rewrite lookup_zip_with, Ha. simpl. rewrite lookup_map, Hb. reflexivity.
Qed.

Section LeapfrogFacts.

Variable balance : list Q → result (list Q * list Q * list Q).
Variable components : list Leapfrog.component.
Variable asselin : Q.

(** What a successful call has done to the heap. *)
Lemma call_inv (previous kept : option (list Q)) (h h1 : heap) (s d n : addr) (dt : Z) :
  Leapfrog.call balance components asselin previous h s dt = Ok (kept, h1, d, n) →
  ∃ diags next,
    Leapfrog.step balance components asselin previous (deref h s) dt
    = Ok (diags, next, kept)
    ∧ d = fresh (dom h)
    ∧ n = fresh (dom (<[d := diags]> h))
    ∧ h1 = <[n := next]> (<[d := diags]> h).
Proof.
  unfold Leapfrog.call.
  destruct (Leapfrog.step _ _ _ _ _ _) as [[[diags next] kept']|e]; simpl;
    [|discriminate].
  intros [= <- <- <- <-]. by exists diags, next.
Qed.

(** The next state of a step has four fields, and no time. *)
Lemma step_next_no_time (previous kept : option (list Q)) (state diags next : dict) (dt : Z) :
  Leapfrog.step balance components asselin previous state dt = Ok (diags, next, kept) →
  next !! "time"%string = None
  ∧ is_Some (state !! "vorticity"%string).
Proof.
  unfold Leapfrog.step.
  destruct (Leapfrog.evaluate_all _ _ _) as [[tends dg]|e]; simpl; [|discriminate].
  unfold Leapfrog.vorticity_of.
  destruct (state !! "vorticity"%string) as [[t|v]|] eqn:Hv; simpl; try discriminate.
  destruct (balance _) as [[[psi u] w]|e]; simpl; [|discriminate].
  intros [= <- <- <-]. split; [|by eexists].
  by rewrite !lookup_insert_ne, lookup_singleton_ne.
Qed.

Lemma fresh_heap_ne (h : heap) (a : addr) :
  is_Some (h !! a) → fresh (dom h) ≠ a.
Proof.
  intros Ha Heq. apply (is_fresh (dom h)). rewrite Heq. by apply elem_of_dom.
Qed.

(** The stepper allocates; it writes to no dictionary it was given. *)
Lemma call_heap (previous kept : option (list Q)) (h h1 : heap) (s d n : addr) (dt : Z) :
  Leapfrog.call balance components asselin previous h s dt = Ok (kept, h1, d, n) →
  is_Some (h !! s) ∧ d ≠ n
  ∧ (∀ a, is_Some (h !! a) → a ≠ d ∧ a ≠ n ∧ h1 !! a = h !! a)
  ∧ deref h1 n !! "time"%string = None.
Proof.
  intros Hcall.
  destruct (call_inv _ _ _ _ _ _ _ _ Hcall) as (diags & next & Hstep & Hd & Hn & Hh1).
  destruct (step_next_no_time _ _ _ _ _ _ Hstep) as [Hnext [v Hv]].
  assert (Hdn : d ≠ n).
  { rewrite Hn. intros Heq. symmetry in Heq. revert Heq.
    apply fresh_heap_ne. rewrite lookup_insert_eq. by eexists. }
  split; [|split; [exact Hdn|split]].
  - unfold deref in Hv. destruct (h !! s); [by eexists|].
    simpl in Hv. by rewrite lookup_empty in Hv.
  - intros a Ha.
    assert (Had : a ≠ d) by (rewrite Hd; intros ->; by apply (fresh_heap_ne h (fresh (dom h)))).
    assert (Han : a ≠ n).
    { rewrite Hn. intros ->. revert Ha. rewrite <- (lookup_insert_ne h d _ diags) by done.
      intros Ha. by apply (fresh_heap_ne (<[d:=diags]> h) (fresh (dom (<[d:=diags]> h)))). }
    split; [done|]. split; [done|].
    rewrite Hh1. by rewrite !lookup_insert_ne.
  - rewrite Hh1, deref_insert_eq. exact Hnext.
Qed.

End LeapfrogFacts.

Lemma state_time_inv (h : heap) (s : addr) (t : Z) :
  state_time h s = Ok t ↔ deref h s !! "time"%string = Some (VTime t).
Proof.
  unfold state_time. destruct (deref h s !! "time"%string) as [[t'|f]|];
    split; intros H; try discriminate; congruence.
Qed.

(** The driver's side of an iteration, for any stepper: the time of the
    next state is the time of the merged state plus the time step, and
    what the monitors stored carries the time before the step. *)
Lemma iteration_sets_time {S} (cfg : config) (stepper : stepper_fn S) (idate : Z)
    (st st' st2 : S) (h h1 h2 : heap) (s d n s2 : addr) (evs : list event) :
  stepper st h s (dt cfg) = Ok (st', h1, d, n) →
  iteration cfg stepper idate st h s = (evs, Ok (st2, h2, s2)) →
  ∃ t, state_time (dict_update h1 s d) s = Ok t
       ∧ s2 = n
       ∧ state_time h2 n = Ok (t + dt cfg)
       ∧ ∀ snap, In (EvNcStore snap) evs ∨ In (EvPltStore snap) evs →
                 snap !! "time"%string = Some (VTime t).
Proof.
  intros Hstep. unfold iteration. rewrite Hstep.
  destruct (state_time _ s) as [t|e] eqn:Ht; [|discriminate].
  destruct (on_cadence _ (ncout_freq cfg)) as [nc|e]; [|discriminate].
  destruct (on_cadence _ (plot_freq cfg)) as [plt|e]; [|discriminate].
  destruct (Time.add t (dt cfg)) as [tn|e] eqn:Hadd; [|discriminate].
  intros [= <- <- <- <-]. exists t.
  assert (tn = t + dt cfg) as ->.
  { unfold Time.add in Hadd.
    destruct (Time.date_in_range (t + dt cfg)); congruence. }
  split; [reflexivity|]. split; [reflexivity|].
  split; [apply state_time_setitem|].
  apply state_time_inv in Ht.
  intros snap Hin. destruct nc, plt; simpl in Hin;
    intuition (try discriminate; congruence).
Qed.

Section LeapfrogContract.

Variable balance : list Q → result (list Q * list Q * list Q).
Variable components : list Leapfrog.component.
Variable asselin : Q.

Lemma evaluate_all_no_key (cs : list Leapfrog.component) (state : dict)
    (acc : gmap string (list Q) * gmap string (list Q))
    (tends diags : gmap string (list Q)) (key : string) :
  (∀ c, In c cs → (Leapfrog.evaluate c state).2 !! key = None) →
  acc.2 !! key = None →
  Leapfrog.evaluate_all cs state acc = Ok (tends, diags) →
  diags !! key = None.
Proof.
  revert acc. induction cs as [|c cs IH]; intros acc Hcs Hacc; simpl.
  - intros [= ->]. exact Hacc.
  - pose proof (Hcs c (or_introl eq_refl)) as Hc.
    destruct (Leapfrog.evaluate c state) as [t dg]. simpl in Hc.
    destruct (Leapfrog.sum_tendencies acc.1 t) as [t'|e]; simpl; [|discriminate].
    unfold Leapfrog.merge_diagnostics.
    destruct (decide (acc.2 ##ₘ dg)); simpl; [|discriminate].
    apply IH.
    + intros c' Hc'. apply Hcs. by right.
    + simpl. by apply lookup_union_None.
Qed.

Lemma step_diags_no_key (previous kept : option (list Q))
    (state diags next : dict) (dt : Z) (key : string) :
  (∀ c, In c components → (Leapfrog.evaluate c state).2 !! key = None) →
  Leapfrog.step balance components asselin previous state dt = Ok (diags, next, kept) →
  diags !! key = None.
Proof.
  intros Hcs. unfold Leapfrog.step.
  destruct (Leapfrog.evaluate_all _ _ _) as [[tends dg]|e] eqn:Hall; simpl;
    [|discriminate].
  destruct (Leapfrog.vorticity_of state) as [v|e]; simpl; [|discriminate].
  destruct (balance _) as [[[psi u] w]|e]; simpl; [|discriminate].
  intros [= <- <- <-]. rewrite lookup_fmap.
  by rewrite (evaluate_all_no_key _ _ _ _ _ key Hcs (lookup_empty _) Hall).
Qed.

(** Components that emit no diagnostic called ['time'] make a stepper
    that honours the contract of the loop. *)
Lemma call_keeps_time :
  (∀ c state, In c components → (Leapfrog.evaluate c state).2 !! "time"%string = None) →
  keeps_time (Leapfrog.call balance components asselin).
Proof.
  intros Hcs st h s dt st' h1 d n t Ht Hcall.
  destruct (call_inv _ _ _ _ _ _ _ _ _ _ _ Hcall) as (diags & next & Hstep & Hd & Hn & Hh1).
  destruct (call_heap _ _ _ _ _ _ _ _ _ _ _ Hcall) as (Hs & Hdn & Hold & _).
  destruct (Hold s Hs) as (Hsd & Hsn & Hsame).
  apply state_time_inv. apply state_time_inv in Ht.
  unfold dict_update. rewrite deref_insert_eq.
  assert (Hdiag : deref h1 d = diags).
  { rewrite Hh1. rewrite deref_insert_ne by done. apply deref_insert_eq. }
  assert (Hstate : deref h1 s = deref h s) by (unfold deref; by rewrite Hsame).
  rewrite Hdiag, Hstate, lookup_union_r; [exact Ht|].
  apply (step_diags_no_key _ _ _ _ _ _ _ (λ c, Hcs c _) Hstep).
Qed.

(** C3: the stepper returns the diagnostics and a next state that
    carries no time, and leaves the current state as it was; the driver
    gives the next state its time, the time of the current state plus
    the time step, after the monitors have stored the current state. *)
Theorem next_time_set_by_driver (cfg : config) (idate : Z)
    (previous kept : option (list Q)) (h h2 : heap) (s s2 : addr) (evs : list event) :
  iteration cfg (Leapfrog.call balance components asselin) idate previous h s
  = (evs, Ok (kept, h2, s2)) →
  ∃ h1 d n t,
    Leapfrog.call balance components asselin previous h s (dt cfg) = Ok (kept, h1, d, n)
    ∧ deref h1 n !! "time"%string = None
    ∧ deref h1 s = deref h s
    ∧ s2 = n
    ∧ state_time (dict_update h1 s d) s = Ok t
    ∧ state_time h2 n = Ok (t + dt cfg)
    ∧ ∀ snap, In (EvNcStore snap) evs ∨ In (EvPltStore snap) evs →
              snap !! "time"%string = Some (VTime t).
Proof.
  intros Hit.
  destruct (Leapfrog.call balance components asselin previous h s (dt cfg))
    as [[[[st1 h1] d] n]|e] eqn:Hcall.
  - destruct (iteration_sets_time _ _ _ _ _ _ _ _ _ _ _ _ _ _ Hcall Hit)
      as (t & Ht & Hs2 & Hnext & Hsnap).
    assert (st1 = kept) as ->.
    { unfold iteration in Hit. rewrite Hcall, Ht in Hit.
      destruct (on_cadence _ (ncout_freq cfg)); [|discriminate].
      destruct (on_cadence _ (plot_freq cfg)); [|discriminate].
      destruct (Time.add t (dt cfg)); [|discriminate]. congruence. }
    destruct (call_heap _ _ _ _ _ _ _ _ _ _ _ Hcall) as (Hs & _ & Hold & Hno).
    destruct (Hold s Hs) as (_ & _ & Hsame).
    exists h1, d, n, t. repeat (split; [done|]).
    split; [unfold deref; by rewrite Hsame|]. done.
  - unfold iteration in Hit. rewrite Hcall in Hit. discriminate.
Qed.

End LeapfrogContract.

(** C1: with a previous level and one component of constant tendency,
    the vorticity of the next state is, point by point, the previous
    level plus twice the time step times the tendency; the filter only
    touches the level the stepper keeps. *)
Theorem leapfrog_update_law
    (balance : list Q → result (list Q * list Q * list Q)) (asselin : Q)
    (c : Leapfrog.component) (T : list Q) (diags : gmap string (list Q))
    (v_old v : list Q) (state : dict) (dt : Z) :
  (∀ st, Leapfrog.evaluate c st = ({[ "vorticity"%string := T ]}, diags)) →
  (∀ x, is_ok (balance x) = true) →
  state !! "vorticity"%string = Some (VField v) →
  length v_old = length T →
  ∃ next kept v_new,
    Leapfrog.step balance [c] asselin (Some v_old) state dt
    = Ok (VField <$> diags, next, kept)
    ∧ kept = Some (Leapfrog.filter asselin v_old v v_new)
    ∧ next !! "vorticity"%string = Some (VField v_new)
    ∧ length v_new = length v_old
    ∧ ∀ i x y, v_old !! i = Some x → T !! i = Some y →
        ∃ z, v_new !! i = Some z
             ∧ (z == x + 2 * (inject_Z dt / 1000000) * y)%Q.
Proof.
  intros Hc Hbal Hv Hlen. unfold Leapfrog.step. simpl.
  rewrite Hc. simpl.
  unfold Leapfrog.sum_tendencies, Leapfrog.same_shape.
  rewrite map_zip_with_empty_l.
  rewrite bool_decide_true by apply map_Forall_empty. simpl.
  unfold Leapfrog.merge_diagnostics.
  rewrite decide_True by apply map_disjoint_empty_l. simpl.
  unfold Leapfrog.vorticity_of. rewrite Hv. simpl.
  rewrite (left_id_L ∅ (union_with _)), lookup_singleton_eq. simpl.
  rewrite (left_id_L ∅ (∪)).
  specialize (Hbal (Leapfrog.fadd v_old (Leapfrog.fscale (2 * Leapfrog.seconds dt) T))).
  destruct (balance _) as [[[psi u] w]|e]; [|discriminate]. simpl.
  eexists _, _, _. split; [reflexivity|]. split; [reflexivity|].
  split; [apply lookup_insert_eq|]. split.
  - apply fadd_length. unfold Leapfrog.fscale. by rewrite length_map.
  - intros i x y Hx Hy. eexists. split.
    + by apply fadd_fscale_lookup.
    + reflexivity.
Qed.


(** ** The properties on the concrete run *)

Lemma example_keeps_time : keeps_time Example.stepper.
Proof.
  apply call_keeps_time. intros c state [<-|[]]. simpl.
  apply lookup_singleton_ne. discriminate.
Qed.

Lemma example_first_call :
  Example.stepper None Example.heap0 1 (dt Example.short)
  = Ok (Example.first_call.1.1.1, Example.first_call.1.1.2,
        Example.first_call.1.2, Example.first_call.2).
Proof. reflexivity. Qed.

Lemma example_first_iteration :
  iteration Example.short Example.stepper 0 None Example.heap0 1
  = (Example.first_events,
     Ok (Example.first_handed.1.1, Example.first_handed.1.2, Example.first_handed.2)).
Proof. reflexivity. Qed.

(** C4, on an input: after the iteration the dictionary of the current
    state is no longer what the stepper left; it holds the diagnostics. *)
Lemma merge_mutates_state :
  ¬ merge_copies Example.short Example.stepper 0 None Example.heap0 1.
Proof.
  intros Hcopy. apply merge_copies_untouched in Hcopy.
  vm_compute in Hcopy. discriminate Hcopy.
Qed.

Lemma leapfrog_update_law_witness :
  length [1 # 1; 2 # 1]%Q = length [1 # 4; 0 # 1]%Q
  ∧ ∃ next kept v_new,
      Leapfrog.step Example.still [Example.forcing] (1 # 25)
        (Some [1 # 1; 2 # 1]%Q) Example.state0 (Time.hours 3)
      = Ok (VField <$> {[ "forcing_tendency"%string := [1 # 4; 0 # 1]%Q ]}, next, kept)
      ∧ kept = Some (Leapfrog.filter (1 # 25) [1 # 1; 2 # 1]%Q [0 # 1; 0 # 1]%Q v_new)
      ∧ next !! "vorticity"%string = Some (VField v_new)
      ∧ length v_new = length [1 # 1; 2 # 1]%Q
      ∧ ∀ i x y, [1 # 1; 2 # 1]%Q !! i = Some x → [1 # 4; 0 # 1]%Q !! i = Some y →
          ∃ z, v_new !! i = Some z
               ∧ (z == x + 2 * (inject_Z (Time.hours 3) / 1000000) * y)%Q.
Proof.
  split; [reflexivity|].
  apply (leapfrog_update_law Example.still (1 # 25) Example.forcing
           [1 # 4; 0 # 1]%Q {[ "forcing_tendency"%string := [1 # 4; 0 # 1]%Q ]}
           [1 # 1; 2 # 1]%Q [0 # 1; 0 # 1]%Q Example.state0 (Time.hours 3)).
  - intros st. reflexivity.
  - intros x. reflexivity.
  - reflexivity.
  - reflexivity.
Defined.

Lemma nc_store_cadence_witness :
  ncout_freq Example.short ≠ 0
  ∧ state_time (dict_update Example.first_call.1.1.2 1 Example.first_call.1.2) 1 = Ok 0
  ∧ nc_stored (iteration Example.short Example.stepper 0 None Example.heap0 1).1.
Proof.
  split; [discriminate|]. split; [reflexivity|].
  apply (proj1 (proj2 (proj2
           (nc_store_cadence Example.short Example.stepper 0 None _
              Example.heap0 _ 1 _ _ 0
              ltac:(discriminate) example_first_call eq_refl))) 0).
  - reflexivity.
  - reflexivity.
  - left. reflexivity.
Defined.

Lemma next_time_set_by_driver_witness :
  ∃ h1 d n t,
    Example.stepper None Example.heap0 1 (dt Example.short)
    = Ok (Example.first_handed.1.1, h1, d, n)
    ∧ deref h1 n !! "time"%string = None
    ∧ deref h1 1 = deref Example.heap0 1
    ∧ Example.first_handed.2 = n
    ∧ state_time (dict_update h1 1 d) 1 = Ok t
    ∧ state_time Example.first_handed.1.2 n = Ok (t + dt Example.short)
    ∧ ∀ snap, In (EvNcStore snap) Example.first_events
              ∨ In (EvPltStore snap) Example.first_events →
              snap !! "time"%string = Some (VTime t).
Proof.
  apply (next_time_set_by_driver Example.still [Example.forcing] (1 # 25)
           Example.short 0 None _ Example.heap0 _ 1 _ _ example_first_iteration).
Defined.

Lemma merge_in_place_witness :
  Example.first_handed.2 = Example.first_call.2
  ∧ (1%positive ≠ Example.first_call.2 →
     deref Example.first_handed.1.2 1
     = deref Example.first_call.1.1.2 Example.first_call.1.2
       ∪ deref Example.first_call.1.1.2 1)
  ∧ (∃ tn, deref Example.first_handed.1.2 Example.first_call.2
           = <["time"%string := VTime tn]>
               (if decide (Example.first_call.2 = 1%positive)
                then deref Example.first_call.1.1.2 Example.first_call.1.2
                     ∪ deref Example.first_call.1.1.2 1
                else deref Example.first_call.1.1.2 Example.first_call.2))
  ∧ (∀ a, a ≠ 1%positive → a ≠ Example.first_call.2 →
          Example.first_handed.1.2 !! a = Example.first_call.1.1.2 !! a).
Proof.
  apply (merge_in_place Example.short Example.stepper 0 None _ _ Example.heap0
           _ _ 1 _ _ _ _ example_first_call example_first_iteration).
Defined.

Lemma loop_terminates_witness :
  0 < dt Example.short
  ∧ ∃ fuel, ∀ fuel', (fuel ≤ fuel')%nat →
      ∃ o, (integrate Example.short Example.stepper 0 (Time.hours 9) fuel'
              None Example.heap0 1).2 = Some o
           ∧ left_properly (Time.hours 9) o.
Proof.
  split; [reflexivity|].
  apply (loop_terminates Example.short Example.stepper 0 (Time.hours 9)
           None Example.heap0 1).
  - reflexivity.
  - exact example_keeps_time.
Defined.

Lemma time_nondecreasing_witness :
  0 < dt Example.short
  ∧ let ts := loop_times (integrate Example.short Example.stepper 0 (Time.hours 9) 10
                            None Example.heap0 1).1 in
    (∀ i t t', ts !! i = Some t → ts !! Datatypes.S i = Some t' →
       t' = t + dt Example.short ∧ t < t')
    ∧ (∀ i j t t', (i ≤ j)%nat → ts !! i = Some t → ts !! j = Some t' → t ≤ t').
Proof.
  split; [reflexivity|].
  apply (time_nondecreasing Example.short Example.stepper 0 (Time.hours 9) 10
           None Example.heap0 1).
  - reflexivity.
  - exact example_keeps_time.
Defined.

Lemma invalid_duration_raises_witness :
  accepted (duration (with_duration Example.short "ten days")) = false
  ∧ let r := main (with_duration Example.short "ten days") Example.leapfrog
               Example.stepper 5 ∅ Example.heap0 1 in
    final r = Some (Failed ValueError)
    ∧ trace r = (monitors (with_duration Example.short "ten days") ∅).2
    ∧ ¬ has_loop_test (trace r).
Proof.
  split; [reflexivity|].
  apply (invalid_duration_raises (with_duration Example.short "ten days")
           Example.leapfrog Example.stepper 5 ∅ Example.heap0 1).
  - reflexivity.
  - eexists. reflexivity.
Defined.

Lemma final_state_past_end_witness :
  0 < dt Example.short
  ∧ state_time Example.heap0 1 = Ok 0
  ∧ integrate Example.short Example.stepper 0 0 2 None Example.heap0 1
    = (EvLoopTest 0 :: Example.first_events ++ [EvLoopTest (0 + dt Example.short)],
       Some (Finished Example.first_handed.1.2 Example.first_handed.2))
  ∧ state_time Example.first_handed.1.2 Example.first_handed.2
    = Ok (0 + dt Example.short)
  ∧ 0 < 0 + dt Example.short.
Proof.
  split; [reflexivity|]. split; [reflexivity|].
  apply (proj1 (final_state_past_end Example.short Example.stepper 0 0
                  eq_refl example_keeps_time)
           None Example.heap0 1%positive _ _ _ _ eq_refl example_first_iteration
           2%nat (le_n 2)).
Defined.

(** * Further properties of the driver *)

(** ** The body of the loop, event by event *)

(** The body on a successful call: its events and what it hands on. *)
Lemma iteration_body {S} (cfg : config) (stepper : stepper_fn S) (idate : Z)
    (st st' : S) (h h1 : heap) (s d n : addr) (t : Z) (nc plt : bool) :
  stepper st h s (dt cfg) = Ok (st', h1, d, n) →
  state_time (dict_update h1 s d) s = Ok t →
  on_cadence (fhour t idate) (ncout_freq cfg) = Ok nc →
  on_cadence (fhour t idate) (plot_freq cfg) = Ok plt →
  iteration cfg stepper idate st h s
  = (body_events t (deref (dict_update h1 s d) s) nc plt,
     do tn <- Time.add t (dt cfg);
     Ok (st', setitem (dict_update h1 s d) n "time" (VTime tn), n)).
Proof.
  intros Hstep Ht Hnc Hplt. unfold iteration, body_events.
  rewrite Hstep, Ht, Hnc, Hplt.
  by destruct (Time.add t (dt cfg)).
Qed.

Lemma plt_stored_body (t : Z) (snap : dict) (nc plt : bool) :
  plt_stored (body_events t snap nc plt) ↔ plt = true.
Proof.
  unfold plt_stored, body_events. split.
  - intros [x Hin]. destruct nc, plt; simpl in Hin; intuition discriminate.
  - intros ->. exists snap. apply in_or_app. right. by left.
Qed.

(** X1: in an iteration whose stepper call succeeds, the events are, in
    this order, the print and the NetCDF store when the elapsed hours are
    a multiple of [ncout_freq], then the plot store when they are a
    multiple of [plot_freq]; both monitors get the merged state, and the
    two tests are independent. *)
Theorem body_trace {S} (cfg : config) (stepper : stepper_fn S) (idate : Z)
    (st st' : S) (h h1 : heap) (s d n : addr) (t : Z) :
  ncout_freq cfg ≠ 0 →
  plot_freq cfg ≠ 0 →
  stepper st h s (dt cfg) = Ok (st', h1, d, n) →
  state_time (dict_update h1 s d) s = Ok t →
  ∃ nc plt,
    (iteration cfg stepper idate st h s).1
    = body_events t (deref (dict_update h1 s d) s) nc plt
    ∧ (nc = true ↔ ∃ q : Z, (fhour t idate == inject_Z (q * ncout_freq cfg))%Q)
    ∧ (plt = true ↔ ∃ q : Z, (fhour t idate == inject_Z (q * plot_freq cfg))%Q)
    ∧ (plt_stored (iteration cfg stepper idate st h s).1 ↔ plt = true).
Proof.
  intros Hnc Hplt Hstep Ht.
  destruct (on_cadence_spec (fhour t idate) (ncout_freq cfg) Hnc) as (nc & Enc & Inc).
  destruct (on_cadence_spec (fhour t idate) (plot_freq cfg) Hplt) as (plt & Eplt & Iplt).
  exists nc, plt.
  rewrite (iteration_body cfg stepper idate st st' h h1 s d n t nc plt Hstep Ht Enc Eplt).
  simpl. split; [reflexivity|]. split; [exact Inc|]. split; [exact Iplt|].
  apply plt_stored_body.
Qed.

(** X2: a zero frequency is a division by zero.  With [ncout_freq = 0]
    the iteration raises before anything is stored; with [plot_freq = 0]
    only, it raises once the NetCDF monitor has had its turn, and the
    plot monitor stores nothing. *)
Theorem zero_frequency_raises {S} (cfg : config) (stepper : stepper_fn S) (idate : Z)
    (st st' : S) (h h1 : heap) (s d n : addr) (t : Z) :
  stepper st h s (dt cfg) = Ok (st', h1, d, n) →
  state_time (dict_update h1 s d) s = Ok t →
  (ncout_freq cfg = 0 →
     iteration cfg stepper idate st h s = ([], Raise ZeroDivisionError))
  ∧ (ncout_freq cfg ≠ 0 → plot_freq cfg = 0 →
     ∃ nc,
       iteration cfg stepper idate st h s
       = (body_events t (deref (dict_update h1 s d) s) nc false,
          Raise ZeroDivisionError)
       ∧ (nc = true ↔ ∃ q : Z, (fhour t idate == inject_Z (q * ncout_freq cfg))%Q)).
Proof.
  intros Hstep Ht. split.
  - intros H0. unfold iteration. rewrite Hstep, Ht.
    unfold on_cadence, pymod. by rewrite H0.
  - intros Hnc H0.
    destruct (on_cadence_spec (fhour t idate) (ncout_freq cfg) Hnc) as (nc & Enc & Inc).
    exists nc. split; [|exact Inc].
    unfold iteration, body_events. rewrite Hstep, Ht, Enc.
    unfold on_cadence at 1. unfold pymod. rewrite H0. simpl.
    by rewrite app_nil_r.
Qed.

(** ** The elapsed hours *)

Lemma fhour_seconds_value (idate sec us : Z) :
  0 ≤ us < Time.us_per_second →
  (fhour (idate + sec * Time.us_per_second + us) idate == sec # 3600)%Q.
Proof.
  intros Hus. unfold fhour, Time.sub, Time.days, Time.seconds, Time.us_per_day.
  unfold Time.us_per_second in *.
  replace (idate + sec * 1000000 + us - idate) with (sec * 1000000 + us) by lia.
  replace (86400 * 1000000) with (1000000 * 86400) by lia.
  assert (Hdiv : (sec * 1000000 + us) / 1000000 = sec).
  { rewrite Z.div_add_l by lia. rewrite Z.div_small by lia. lia. }
  rewrite <- Z.div_div by lia. rewrite Hdiv.
  rewrite Z.rem_mul_r by lia. rewrite Hdiv.
  rewrite (Z.mul_comm 1000000), Z.div_add by lia.
  rewrite (Z.div_small ((sec * 1000000 + us) `mod` 1000000)) by (apply Z.mod_pos_bound; lia).
  rewrite Z.add_0_l.
  unfold Qeq, Qplus, inject_Z. simpl Qnum. simpl Qden.
  pose proof (Z.div_mod sec 86400 ltac:(lia)) as Hdm.
  lia.
Qed.

(** X3: the elapsed hours are counted in whole seconds: the microseconds
    of the elapsed time are dropped, so a state is on the cadence of a
    monitor exactly when its elapsed whole seconds are a multiple of 3600
    times the frequency. *)
Theorem cadence_in_whole_seconds (idate sec us freq : Z) :
  0 ≤ us < Time.us_per_second →
  freq ≠ 0 →
  (fhour (idate + sec * Time.us_per_second + us) idate
   == fhour (idate + sec * Time.us_per_second) idate)%Q
  ∧ ∃ b, on_cadence (fhour (idate + sec * Time.us_per_second + us) idate) freq = Ok b
         ∧ (b = true ↔ ∃ q : Z, sec = q * (3600 * freq)).
Proof.
  intros Hus Hfreq. split.
  - rewrite (fhour_seconds_value idate sec us Hus).
    replace (idate + sec * Time.us_per_second)
      with (idate + sec * Time.us_per_second + 0) by lia.
    rewrite (fhour_seconds_value idate sec 0); [reflexivity|].
    unfold Time.us_per_second. lia.
  - destruct (on_cadence_spec (fhour (idate + sec * Time.us_per_second + us) idate)
                freq Hfreq) as (b & Hb & Hiff).
    exists b. split; [exact Hb|]. rewrite Hiff. split; intros [q Hq]; exists q.
    + rewrite (fhour_seconds_value idate sec us Hus) in Hq.
      unfold Qeq, inject_Z in Hq. simpl in Hq. lia.
    + rewrite (fhour_seconds_value idate sec us Hus).
      unfold Qeq, inject_Z. simpl. lia.
Qed.

(** ** What a run stores *)

Lemma fhour_zero (t : Z) : (fhour t t == 0)%Q.
Proof.
  replace t with (t + Time.hours 0) at 1 by (unfold Time.hours; lia).
  apply fhour_hours.
Qed.

Lemma on_cadence_start (t freq : Z) :
  freq ≠ 0 → on_cadence (fhour t t) freq = Ok true.
Proof.
  intros Hfreq.
  destruct (on_cadence_spec (fhour t t) freq Hfreq) as (b & Hb & Hiff).
  rewrite Hb. f_equal. apply Hiff. exists 0. rewrite fhour_zero. reflexivity.
Qed.

(** X4: a run that enters the loop starts its output with the initial
    state: whatever the two frequencies, the first iteration prints the
    initial time and hands the merged initial state to the NetCDF monitor
    and to the plot monitor. *)
Theorem first_record {S} (cfg : config) (L : list wrapped → S)
    (stepper : stepper_fn S) (fuel : nat) (fs : gset string)
    (h h1 : heap) (s d n : addr) (st' : S) (t0 e : Z) :
  ncout_freq cfg ≠ 0 →
  plot_freq cfg ≠ 0 →
  end_of_run cfg h s = Ok e →
  state_time h s = Ok t0 →
  t0 ≤ e →
  stepper (L (prognostics cfg)) h s (dt cfg) = Ok (st', h1, d, n) →
  state_time (dict_update h1 s d) s = Ok t0 →
  ∃ rest,
    trace (main cfg L stepper (Datatypes.S fuel) fs h s)
    = (monitors cfg fs).2
      ++ [EvLoopTest t0; EvPrint t0;
          EvNcStore (deref (dict_update h1 s d) s);
          EvPltStore (deref (dict_update h1 s d) s)]
      ++ rest.
Proof.
  intros Hnc Hplt Hend Ht0 Hle Hstep Hmerged. unfold main.
  destruct (monitors cfg fs) as [fs' evs]. rewrite Hend, Ht0. simpl.
  rewrite Ht0. destruct (Z.leb_spec t0 e); [|lia].
  rewrite (iteration_body cfg stepper t0 _ st' h h1 s d n t0 true true
             Hstep Hmerged (on_cadence_start t0 _ Hnc) (on_cadence_start t0 _ Hplt)).
  destruct (Time.add t0 (dt cfg)) as [tn|err]; simpl.
  - destruct (integrate _ _ _ _ _ _ _ _) as [evs' o]. simpl. by exists evs'.
  - by exists [].
Qed.

Lemma snapshots_app (a b : list event) :
  snapshots (a ++ b) = snapshots a ++ snapshots b.
Proof.
  induction a as [|x a IH]; [reflexivity|].
  destruct x; simpl; by rewrite IH.
Qed.

(** What the monitors get in an iteration carries the time of the state
    the iteration started on. *)
Lemma iteration_snapshots {S} (cfg : config) (stepper : stepper_fn S) (idate : Z)
    (st : S) (h : heap) (s : addr) (t : Z) :
  keeps_time stepper →
  state_time h s = Ok t →
  Forall (λ snap : dict, snap !! "time"%string = Some (VTime t))
         (snapshots (iteration cfg stepper idate st h s).1).
Proof.
  intros Hkeep Ht. unfold iteration.
  destruct (stepper st h s (dt cfg)) as [[[[st1 h1] d] n]|err] eqn:Hstep;
    [|constructor].
  pose proof (Hkeep _ _ _ _ _ _ _ _ _ Ht Hstep) as Hmerged.
  rewrite Hmerged. apply state_time_inv in Hmerged.
  destruct (on_cadence _ (ncout_freq cfg)) as [nc|err]; [|constructor].
  destruct (on_cadence _ (plot_freq cfg)) as [plt|err];
    [destruct (Time.add t (dt cfg))|];
    destruct nc; try destruct plt; simpl; repeat constructor; exact Hmerged.
Qed.

(** X5: every state a monitor stores during the loop has a time that is
    not past the end date: the state the loop is left on, the first one
    past the end date, is never stored. *)
Theorem stored_states_within_run {S} (cfg : config) (stepper : stepper_fn S)
    (idate end_date : Z) (fuel : nat) (st : S) (h : heap) (s : addr) :
  keeps_time stepper →
  Forall (λ snap : dict,
            ∃ t, snap !! "time"%string = Some (VTime t) ∧ t ≤ end_date)
         (snapshots (integrate cfg stepper idate end_date fuel st h s).1).
Proof.
  intros Hkeep. revert st h s.
  induction fuel as [|fuel IH]; intros st h s; simpl; [constructor|].
  destruct (state_time h s) as [t|err] eqn:Ht; [|constructor].
  destruct (Z.leb_spec t end_date) as [Hle|Hgt]; [|simpl; constructor].
  pose proof (iteration_snapshots cfg stepper idate st h s t Hkeep Ht) as Hsnap.
  assert (Hhere : Forall (λ snap : dict,
            ∃ t, snap !! "time"%string = Some (VTime t) ∧ t ≤ end_date)
         (snapshots (iteration cfg stepper idate st h s).1)).
  { eapply Forall_impl; [exact Hsnap|]. intros snap Hs. by exists t. }
  destruct (iteration cfg stepper idate st h s) as [evs [[[st1 h1] s1]|err]];
    simpl in *; [|exact Hhere].
  specialize (IH st1 h1 s1).
  destruct (integrate _ _ _ _ _ _ _ _) as [evs' o]. simpl in *.
  rewrite snapshots_app. by apply Forall_app.
Qed.

(** X6: a run that starts no later than the end date and is left on a
    state is left on the first time of the grid [t0 + i dt] that is past
    the end date: after [(end_date - t0) / dt + 1] steps, past the end
    date by at most one time step. *)
Theorem final_time_bounds {S} (cfg : config) (stepper : stepper_fn S)
    (idate end_date : Z) (fuel : nat) (st : S) (h h' : heap) (s s' : addr) (t0 : Z) :
  0 < dt cfg →
  keeps_time stepper →
  state_time h s = Ok t0 →
  t0 ≤ end_date →
  (integrate cfg stepper idate end_date fuel st h s).2 = Some (Finished h' s') →
  state_time h' s' = Ok (t0 + ((end_date - t0) / dt cfg + 1) * dt cfg)
  ∧ end_date < t0 + ((end_date - t0) / dt cfg + 1) * dt cfg ≤ end_date + dt cfg.
Proof.
  intros Hdt Hkeep Ht Hle Hfin.
  destruct (integrate_finish_time cfg stepper idate end_date Hkeep
              fuel st h h' s s' t0 Ht Hfin) as (j & Hj & Hpast & Hbefore).
  destruct j as [|j]; [lia|].
  specialize (Hbefore j ltac:(lia)).
  assert (Hq : (end_date - t0) / dt cfg = Z.of_nat j).
  { symmetry. apply (Z.div_unique_pos _ _ _ (end_date - t0 - Z.of_nat j * dt cfg)); lia. }
  rewrite Hq. split; [|lia].
  rewrite Hj. f_equal. lia.
Qed.

(** ** The run duration, piece by piece *)

(** White space around a piece is stripped, a separator of the range
    U+001C to U+001F is not: such a piece is no integer. *)
Example int_white_space :
  Duration.int (String (ascii_of_N 160) (String (ascii_of_N 9) "10 ")) = Ok 10
  ∧ Duration.int (String (ascii_of_N 28) "2") = Raise ValueError
  ∧ Duration.int (String "2" (String (ascii_of_N 31) "")) = Raise ValueError
  ∧ accepted (String "1" (String "_" (String (ascii_of_N 28) "2:3"))) = false.
Proof. repeat split; reflexivity. Qed.

(** The end date of three integer pieces: days, hours and minutes are
    added up as they come, none is held to a range. *)
Lemma end_of_run_value (cfg : config) (h : heap) (s : addr)
    (d hh m : string) (dz hz mz t0 : Z) :
  Duration.re_split (duration cfg) = [d; hh; m] →
  Duration.int d = Ok dz →
  Duration.int hh = Ok hz →
  Duration.int m = Ok mz →
  state_time h s = Ok t0 →
  Time.delta_in_range (((dz * 24 + hz) * 60 + mz) * 60 * Time.us_per_second) = true →
  Time.date_in_range (t0 + ((dz * 24 + hz) * 60 + mz) * 60 * Time.us_per_second) = true →
  end_of_run cfg h s = Ok (t0 + ((dz * 24 + hz) * 60 + mz) * 60 * Time.us_per_second).
Proof.
  intros Hsplit Hd Hh Hm Ht Hdelta Hdate. apply state_time_inv in Ht.
  unfold end_of_run. rewrite Hsplit, Ht, Hd, Hh, Hm. simpl.
  unfold Time.timedelta. rewrite Hdelta. simpl.
  unfold Time.add. by rewrite Hdate.
Qed.

(** X7: a duration whose days, hours and minutes add up to less than
    nothing is accepted; the run then calls the stepper not once and is
    left on the initial state, untouched, after the monitors are made
    and an earlier output file is removed. *)
Theorem negative_duration_runs_nothing {S} (cfg : config) (L : list wrapped → S)
    (stepper : stepper_fn S) (fuel : nat) (fs : gset string) (h : heap) (s : addr)
    (d hh m : string) (dz hz mz t0 : Z) :
  Duration.re_split (duration cfg) = [d; hh; m] →
  Duration.int d = Ok dz →
  Duration.int hh = Ok hz →
  Duration.int m = Ok mz →
  state_time h s = Ok t0 →
  (dz * 24 + hz) * 60 + mz < 0 →
  Time.delta_in_range (((dz * 24 + hz) * 60 + mz) * 60 * Time.us_per_second) = true →
  Time.date_in_range (t0 + ((dz * 24 + hz) * 60 + mz) * 60 * Time.us_per_second) = true →
  main cfg L stepper (Datatypes.S fuel) fs h s
  = {| files := (monitors cfg fs).1;
       trace := (monitors cfg fs).2 ++ [EvLoopTest t0];
       final := Some (Finished h s) |}.
Proof.
  intros Hsplit Hd Hh Hm Ht Hneg Hdelta Hdate. unfold main.
  rewrite (end_of_run_value cfg h s d hh m dz hz mz t0 Hsplit Hd Hh Hm Ht Hdelta Hdate).
  destruct (monitors cfg fs) as [fs' evs]. rewrite Ht. simpl. rewrite Ht.
  unfold Time.us_per_second.
  destruct (Z.leb_spec t0 (t0 + ((dz * 24 + hz) * 60 + mz) * 60 * 1000000)); [lia|].
  reflexivity.
Qed.

Lemma re_split_nonempty (s : string) : Duration.re_split s ≠ [].
Proof.
  destruct s as [|c s]; simpl; [discriminate|].
  destruct (Duration.is_sep c); [discriminate|].
  destruct (Duration.re_split s); discriminate.
Qed.

(** X8: splitting cuts at every underscore and every colon: there is one
    piece more than there are separators, no piece holds a separator,
    and the pieces joined are the string without its separators.  A
    duration the driver accepts therefore has exactly two separators. *)
Theorem split_pieces (s : string) :
  length (Duration.re_split s) = Datatypes.S (separators s)
  ∧ Forall (λ p, sep_free p = true) (Duration.re_split s)
  ∧ glue (Duration.re_split s) = drop_separators s
  ∧ (accepted s = true → separators s = 2%nat).
Proof.
  assert (Hlen : ∀ x, length (Duration.re_split x) = Datatypes.S (separators x)).
  { induction x as [|c x IH]; simpl; [reflexivity|].
    destruct (Duration.is_sep c); simpl; [by rewrite IH|].
    destruct (Duration.re_split x) as [|w ws] eqn:E; simpl in *; [discriminate|].
    exact IH. }
  split; [apply Hlen|]. split; [|split].
  - induction s as [|c s IH]; simpl; [by repeat constructor|].
    destruct (Duration.is_sep c) eqn:Hc; [by constructor|].
    destruct (Duration.re_split s) as [|w ws]; simpl.
    + repeat constructor. simpl. by rewrite Hc.
    + inversion IH as [|? ? Hw Hws]; subst. constructor; [|exact Hws].
      simpl. by rewrite Hc, Hw.
  - induction s as [|c s IH]; simpl; [reflexivity|].
    destruct (Duration.is_sep c); simpl; [exact IH|].
    destruct (Duration.re_split s) as [|w ws] eqn:E; simpl in *.
    + by destruct (re_split_nonempty s).
    + by rewrite <- IH.
  - unfold accepted. intros Hacc. specialize (Hlen s).
    destruct (Duration.re_split s) as [|a [|b [|c [|? ?]]]]; try discriminate.
    simpl in Hlen. lia.
Qed.

(** X9: a state without a ['time'] entry stops the run at set-up, with
    no iteration run: with [KeyError] when the duration splits into three
    pieces, whether or not the pieces are integers, and with [ValueError]
    when it does not split into three. *)
Theorem state_without_time {S} (cfg : config) (L : list wrapped → S)
    (stepper : stepper_fn S) (fuel : nat) (fs : gset string) (h : heap) (s : addr) :
  deref h s !! "time"%string = None →
  (length (Duration.re_split (duration cfg)) = 3%nat →
     main cfg L stepper fuel fs h s
     = {| files := (monitors cfg fs).1; trace := (monitors cfg fs).2;
          final := Some (Failed KeyError) |})
  ∧ (length (Duration.re_split (duration cfg)) ≠ 3%nat →
     main cfg L stepper fuel fs h s
     = {| files := (monitors cfg fs).1; trace := (monitors cfg fs).2;
          final := Some (Failed ValueError) |}).
Proof.
  intros Hnone. unfold main, end_of_run.
  destruct (Duration.re_split (duration cfg)) as [|d [|hh [|m [|? ?]]]];
    simpl; rewrite ?Hnone; destruct (monitors cfg fs);
    split; intros Hlen; try reflexivity; try lia; try discriminate.
Qed.

(** ** The list of prognostics, as a whole *)

(** X10: whatever the switches, the dynamics come first, the labels of
    the list are pairwise distinct, its members are all of the
    linearized kind or all of the other, as [linearized] says, and it has
    one member, one more with diffusion and two more with forcing. *)
Theorem prognostics_shape (cfg : config) :
  head (prognostics cfg)
  = Some (TendencyInDiagnosticsWrapper (dynamics_prog cfg) "dynamics")
  ∧ NoDup (map label_of (prognostics cfg))
  ∧ Forall (λ w, linearized_kind w = linearized cfg) (prognostics cfg)
  ∧ length (prognostics cfg)
    = (1 + (if diff_on cfg then 1 else 0) + (if forcing_on cfg then 2 else 0))%nat.
Proof.
  unfold prognostics, dynamics_prog, diffusion_prog, damping_prog, forcing_prog.
  destruct (diff_on cfg), (forcing_on cfg), (linearized cfg); simpl;
    (split; [reflexivity|]; split; [|split; [|reflexivity]]);
    try (repeat constructor; reflexivity);
    repeat (constructor; [rewrite ?list_elem_of_In; simpl; intuition discriminate|]);
    constructor.
Qed.

(** ** The clock and the stepper *)

(** X11: the merge lets the diagnostics overwrite the clock.  When the
    diagnostics carry a date under ['time'], the merged state has that
    time, whatever time the state had, the monitors are given it, and the
    next state is dated from it. *)
Theorem diagnostics_overwrite_clock {S} (cfg : config) (stepper : stepper_fn S)
    (idate : Z) (st st' : S) (h h1 : heap) (s d n : addr) (t' : Z) :
  stepper st h s (dt cfg) = Ok (st', h1, d, n) →
  deref h1 d !! "time"%string = Some (VTime t') →
  state_time (dict_update h1 s d) s = Ok t'
  ∧ ∀ evs st2 h2 s2,
      iteration cfg stepper idate st h s = (evs, Ok (st2, h2, s2)) →
      state_time h2 s2 = Ok (t' + dt cfg)
      ∧ Forall (λ snap : dict, snap !! "time"%string = Some (VTime t'))
               (snapshots evs).
Proof.
  intros Hstep Hv.
  assert (Hmerged : state_time (dict_update h1 s d) s = Ok t').
  { apply state_time_inv. unfold dict_update. rewrite deref_insert_eq.
    by apply lookup_union_Some_l. }
  split; [exact Hmerged|].
  intros evs st2 h2 s2 Hit.
  destruct (iteration_sets_time cfg stepper idate st st' st2 h h1 h2 s d n s2 evs
              Hstep Hit) as (t & Ht & -> & Hnext & Hsnap).
  rewrite Hmerged in Ht. injection Ht as <-. split; [exact Hnext|].
  clear Hit Hnext. induction evs as [|x evs IH]; [constructor|].
  assert (Htail : Forall (λ snap : dict, snap !! "time"%string = Some (VTime t'))
                         (snapshots evs)).
  { apply IH. intros snap [Hin|Hin]; apply Hsnap; [left|right]; by right. }
  destruct x; simpl; try exact Htail; constructor; try exact Htail;
    apply Hsnap; [left|right]; by left.
Qed.

(** X12: with a time step of zero the loop is never left: when the
    stepper never raises and keeps the time, and both frequencies are
    not zero, a run that starts no later than the end date is still in
    the loop after any number of iterations. *)
Theorem zero_step_never_ends {S} (cfg : config) (stepper : stepper_fn S)
    (idate end_date : Z) (t0 : Z) :
  dt cfg = 0 →
  keeps_time stepper →
  (∀ st h s, is_ok (stepper st h s 0) = true) →
  ncout_freq cfg ≠ 0 →
  plot_freq cfg ≠ 0 →
  t0 ≤ end_date →
  Time.date_in_range t0 = true →
  ∀ fuel st h s,
    state_time h s = Ok t0 →
    (integrate cfg stepper idate end_date fuel st h s).2 = None.
Proof.
  intros Hdt Hkeep Htotal Hnc Hplt Hle Hrange.
  induction fuel as [|fuel IH]; intros st h s Ht; simpl; [reflexivity|].
  rewrite Ht. destruct (Z.leb_spec t0 end_date); [|lia].
  specialize (Htotal st h s).
  destruct (stepper st h s 0) as [[[[st1 h1] d] n]|err] eqn:Hstep; [|discriminate].
  rewrite <- Hdt in Hstep.
  pose proof (Hkeep _ _ _ _ _ _ _ _ _ Ht Hstep) as Hmerged.
  destruct (on_cadence_spec (fhour t0 idate) (ncout_freq cfg) Hnc) as (nc & Enc & _).
  destruct (on_cadence_spec (fhour t0 idate) (plot_freq cfg) Hplt) as (plt & Eplt & _).
  rewrite (iteration_body cfg stepper idate st st1 h h1 s d n t0 nc plt
             Hstep Hmerged Enc Eplt).
  unfold Time.add. rewrite Hdt, Z.add_0_r, Hrange. simpl.
  specialize (IH st1 (setitem (dict_update h1 s d) n "time" (VTime t0)) n
                 (state_time_setitem _ _ _)).
  destruct (integrate _ _ _ _ _ _ _ _) as [evs' o]. exact IH.
Qed.

(** ** The further properties on concrete runs *)

Lemma idle_keeps_time : keeps_time idle.
Proof.
  intros st h s step st' h1 d n t Ht [= <- <- <- <-].
  apply state_time_inv. apply state_time_inv in Ht.
  unfold dict_update. rewrite deref_insert_eq.
  by rewrite (idemp (∪) (deref h s)).
Qed.

Lemma body_trace_witness :
  ncout_freq Example.short ≠ 0 ∧ plot_freq Example.short ≠ 0
  ∧ ∃ nc plt,
      (iteration Example.short Example.stepper 0 None Example.heap0 1).1
      = body_events 0
          (deref (dict_update Example.first_call.1.1.2 1 Example.first_call.1.2) 1)
          nc plt
      ∧ (nc = true
         ↔ ∃ q : Z, (fhour 0 0 == inject_Z (q * ncout_freq Example.short))%Q)
      ∧ (plt = true
         ↔ ∃ q : Z, (fhour 0 0 == inject_Z (q * plot_freq Example.short))%Q)
      ∧ (plt_stored (iteration Example.short Example.stepper 0 None Example.heap0 1).1
         ↔ plt = true).
Proof.
  split; [discriminate|]. split; [discriminate|].
  apply (body_trace Example.short Example.stepper 0 None _ Example.heap0 _
           1%positive _ _ 0 ltac:(discriminate) ltac:(discriminate)
           example_first_call eq_refl).
Defined.

Lemma zero_frequency_raises_witness :
  iteration (with_freqs Example.short 0 6) Example.stepper 0 None Example.heap0 1
  = ([], Raise ZeroDivisionError)
  ∧ ∃ nc,
      iteration (with_freqs Example.short 6 0) Example.stepper 0 None Example.heap0 1
      = (body_events 0
           (deref (dict_update Example.first_call.1.1.2 1 Example.first_call.1.2) 1)
           nc false,
         Raise ZeroDivisionError)
      ∧ (nc = true ↔ ∃ q : Z, (fhour 0 0 == inject_Z (q * 6))%Q).
Proof.
  split.
  - apply (proj1 (zero_frequency_raises (with_freqs Example.short 0 6)
                    Example.stepper 0 None _ Example.heap0 _ 1%positive _ _ 0
                    example_first_call eq_refl) eq_refl).
  - apply (proj2 (zero_frequency_raises (with_freqs Example.short 6 0)
                    Example.stepper 0 None _ Example.heap0 _ 1%positive _ _ 0
                    example_first_call eq_refl) ltac:(discriminate) eq_refl).
Defined.

Lemma cadence_in_whole_seconds_witness :
  0 ≤ 999999 < Time.us_per_second
  ∧ (fhour (0 + 21600 * Time.us_per_second + 999999) 0
     == fhour (0 + 21600 * Time.us_per_second) 0)%Q
  ∧ ∃ b, on_cadence (fhour (0 + 21600 * Time.us_per_second + 999999) 0) 6 = Ok b
         ∧ (b = true ↔ ∃ q : Z, 21600 = q * (3600 * 6)).
Proof.
  split; [unfold Time.us_per_second; lia|].
  apply (cadence_in_whole_seconds 0 21600 999999 6).
  - unfold Time.us_per_second. lia.
  - discriminate.
Defined.

Lemma first_record_witness :
  end_of_run Example.short Example.heap0 1 = Ok (Time.hours 9)
  ∧ ∃ rest,
      trace (main Example.short Example.leapfrog Example.stepper 1 ∅ Example.heap0 1)
      = (monitors Example.short ∅).2
        ++ [EvLoopTest 0; EvPrint 0;
            EvNcStore (deref (dict_update Example.first_call.1.1.2 1
                                Example.first_call.1.2) 1);
            EvPltStore (deref (dict_update Example.first_call.1.1.2 1
                                 Example.first_call.1.2) 1)]
        ++ rest.
Proof.
  split; [reflexivity|].
  apply (first_record Example.short Example.leapfrog Example.stepper 0 ∅
           Example.heap0 _ 1%positive _ _ _ 0 (Time.hours 9)
           ltac:(discriminate) ltac:(discriminate) eq_refl eq_refl
           ltac:(discriminate) example_first_call eq_refl).
Defined.

Lemma stored_states_within_run_witness :
  Forall (λ snap : dict,
            ∃ t, snap !! "time"%string = Some (VTime t) ∧ t ≤ Time.hours 9)
         (snapshots (integrate Example.short Example.stepper 0 (Time.hours 9) 10
                       None Example.heap0 1).1).
Proof.
  apply (stored_states_within_run Example.short Example.stepper 0 (Time.hours 9) 10
           None Example.heap0 1 example_keeps_time).
Defined.

Lemma final_time_bounds_witness :
  0 < dt Example.short
  ∧ state_time Example.first_handed.1.2 Example.first_handed.2
    = Ok (0 + ((0 - 0) / dt Example.short + 1) * dt Example.short)
  ∧ 0 < 0 + ((0 - 0) / dt Example.short + 1) * dt Example.short
      ≤ 0 + dt Example.short.
Proof.
  split; [reflexivity|].
  apply (final_time_bounds Example.short Example.stepper 0 0 2 None
           Example.heap0 _ 1%positive _ 0 eq_refl example_keeps_time eq_refl
           ltac:(discriminate) eq_refl).
Defined.

Lemma negative_duration_runs_nothing_witness :
  (-1 * 24 + 0) * 60 + 0 < 0
  ∧ main (with_duration Example.short "-1_00:00") Example.leapfrog Example.stepper
      3 {[ "realdata.nc"%string ]} (heap_at (2 * Time.us_per_day)) 1
    = {| files := (monitors (with_duration Example.short "-1_00:00")
                     {[ "realdata.nc"%string ]}).1;
         trace := (monitors (with_duration Example.short "-1_00:00")
                     {[ "realdata.nc"%string ]}).2
                  ++ [EvLoopTest (2 * Time.us_per_day)];
         final := Some (Finished (heap_at (2 * Time.us_per_day)) 1) |}.
Proof.
  split; [reflexivity|].
  apply (negative_duration_runs_nothing (with_duration Example.short "-1_00:00")
           Example.leapfrog Example.stepper 2 {[ "realdata.nc"%string ]}
           (heap_at (2 * Time.us_per_day)) 1%positive "-1" "00" "00"
           (-1) 0 0 (2 * Time.us_per_day)
           eq_refl eq_refl eq_refl eq_refl eq_refl eq_refl eq_refl eq_refl).
Defined.

Lemma state_without_time_witness :
  deref (∅ : heap) 1 !! "time"%string = None
  ∧ main Example.short Example.leapfrog Example.stepper 5 ∅ ∅ 1
    = {| files := (monitors Example.short ∅).1;
         trace := (monitors Example.short ∅).2;
         final := Some (Failed KeyError) |}.
Proof.
  assert (E : deref (∅ : heap) 1 !! "time"%string = None) by reflexivity.
  split; [exact E|].
  apply (proj1 (state_without_time Example.short Example.leapfrog Example.stepper
                  5 ∅ (∅ : heap) 1%positive E) eq_refl).
Defined.

Lemma diagnostics_overwrite_clock_witness :
  let d := fresh (dom Example.heap0) in
  let h1 := <[d := {[ "time"%string := VTime 77 ]}]> Example.heap0 in
  state_time Example.heap0 1 = Ok 0
  ∧ state_time (dict_update h1 1 d) 1 = Ok 77.
Proof.
  intros d h1. split; [reflexivity|].
  apply (proj1 (diagnostics_overwrite_clock Example.short (clock_writer (VTime 77))
                  0 tt tt Example.heap0 h1 1%positive d d 77 eq_refl eq_refl)).
Defined.

Lemma zero_step_never_ends_witness :
  dt (with_dt Example.short 0) = 0
  ∧ ∀ fuel,
      (integrate (with_dt Example.short 0) idle 0 (Time.hours 9) fuel tt
         Example.heap0 1).2 = None.
Proof.
  split; [reflexivity|]. intros fuel.
  apply (zero_step_never_ends (with_dt Example.short 0) idle 0 (Time.hours 9) 0
           eq_refl idle_keeps_time (λ _ _ _, eq_refl)
           ltac:(discriminate) ltac:(discriminate) ltac:(discriminate) eq_refl
           fuel tt Example.heap0 1%positive eq_refl).
Defined.
